(** * qase_copy_results_v4: copying automated results from project B to project A

    A shallow embedding of [scenario1/qase_copy_results_v4.py] and the
    properties of its pagination, mapping, status translation and
    migration loop.

    Conventions of the embedding.
    - A decoded JSON document is a [pyval].  Numbers are Python [int]s
      (unbounded, so [Z]); numbers with a fractional part are left out.
    - A Python [str] is a Rocq [string]; each [ascii] is read as a code
      point below 256 (Latin-1), which fixes what [lower], [strip] and
      [repr] do on it.  Code points from 256 up are left out.
    - A Python [dict] coming out of [r.json()] is an association list in
      insertion order with pairwise distinct keys; [dict.get] is the first
      match.  The mapping table, which the script only inserts into, looks
      up, measures and tests for emptiness, is a [gmap].
    - The remote service is a class [Remote]: a state and the two
      [requests] entry points acting on it.  A computation of the script
      is a function of that state which returns an outcome, the new state
      and the events (requests, log records, the summary file) it emitted.
    - [while True] in [paginate] gets fuel; running out of it is the
      outcome [OutOfFuel], distinct from every Python exception.
    - [time.sleep] changes no value and is left out. *)

From Stdlib Require Import ZArith String Ascii List DecimalString Lia.
From stdpp Require Import gmap strings list fin_maps.

Set Warnings "-register-all".
Local Open Scope Z_scope.

(** ** Python values *)

Inductive pyval : Type :=
| PNone
| PBool (b : bool)
| PInt (z : Z)
| PStr (s : string)
| PList (l : list pyval)
| PDict (d : list (string * pyval)).

(** Exceptions the script can meet; all of them derive from [Exception]. *)
Inductive exn : Type :=
| RuntimeError (msg : string)
| RequestException
| JSONDecodeError
| AttributeError
| TypeError
| KeyError (k : string).

Module Py.

(** *** Strings *)

(** [str(n)] for an [int]. *)
Definition str_of_int (z : Z) : string :=
  NilZero.string_of_int (Z.to_int z).

Definition lower_char (c : ascii) : ascii :=
  let n := nat_of_ascii c in
  if ((65 <=? n)%nat && (n <=? 90)%nat)
     || ((192 <=? n)%nat && (n <=? 222)%nat && negb (n =? 215)%nat)
  then ascii_of_nat (n + 32) else c.

(** [s.lower()] *)
Fixpoint lower (s : string) : string :=
  match s with
  | EmptyString => EmptyString
  | String c s' => String (lower_char c) (lower s')
  end.

(** [c.isspace()] *)
Definition isspace (c : ascii) : bool :=
  let n := nat_of_ascii c in
  ((9 <=? n)%nat && (n <=? 13)%nat)
  || ((28 <=? n)%nat && (n <=? 32)%nat)
  || (n =? 133)%nat || (n =? 160)%nat.

Fixpoint lstrip (s : string) : string :=
  match s with
  | EmptyString => EmptyString
  | String c s' => if isspace c then lstrip s' else s
  end.

Fixpoint rstrip (s : string) : string :=
  match s with
  | EmptyString => EmptyString
  | String c s' =>
      match rstrip s' with
      | EmptyString => if isspace c then EmptyString else String c EmptyString
      | r => String c r
      end
  end.

(** [s.strip()] *)
Definition strip (s : string) : string := rstrip (lstrip s).

(** [key in s] for two strings: substring test. *)
Fixpoint contains (key s : string) : bool :=
  String.prefix key s
  || match s with
     | EmptyString => false
     | String _ s' => contains key s'
     end.

Fixpoint has_char (c : ascii) (s : string) : bool :=
  match s with
  | EmptyString => false
  | String c' s' => Ascii.eqb c c' || has_char c s'
  end.

Definition hex_digit (n : nat) : ascii :=
  if (n <? 10)%nat then ascii_of_nat (48 + n) else ascii_of_nat (87 + n).

Definition squote : ascii := ascii_of_nat 39.
Definition dquote : ascii := ascii_of_nat 34.
Definition backslash : ascii := ascii_of_nat 92.

Definition repr_char (q c : ascii) : string :=
  let n := nat_of_ascii c in
  if Ascii.eqb c q || Ascii.eqb c backslash then String backslash (String c EmptyString)
  else if (n =? 9)%nat then String backslash "t"
  else if (n =? 10)%nat then String backslash "n"
  else if (n =? 13)%nat then String backslash "r"
  else if (n <? 32)%nat || (n =? 127)%nat
          || ((128 <=? n)%nat && (n <=? 160)%nat) || (n =? 173)%nat
  then String backslash
         (String "x" (String (hex_digit (n / 16)) (String (hex_digit (n mod 16)) EmptyString)))
  else String c EmptyString.

Fixpoint repr_chars (q : ascii) (s : string) : string :=
  match s with
  | EmptyString => EmptyString
  | String c s' => repr_char q c +:+ repr_chars q s'
  end.

(** [repr(s)] for a [str]: single quotes unless the text holds a single
    quote and no double quote. *)
Definition repr_str (s : string) : string :=
  let q := if has_char squote s && negb (has_char dquote s) then dquote else squote in
  String q (repr_chars q s +:+ String q EmptyString).

Fixpoint join (sep : string) (l : list string) : string :=
  match l with
  | [] => EmptyString
  | [x] => x
  | x :: l' => x +:+ sep +:+ join sep l'
  end.

(** [repr(v)] *)
Fixpoint repr (v : pyval) : string :=
  match v with
  | PNone => "None"
  | PBool true => "True"
  | PBool false => "False"
  | PInt z => str_of_int z
  | PStr s => repr_str s
  | PList l => "[" +:+ join ", " (List.map repr l) +:+ "]"
  | PDict d =>
      "{" +:+ join ", " (List.map (fun kv => repr_str (fst kv) +:+ ": " +:+ repr (snd kv)) d)
          +:+ "}"
  end.

(** [str(v)], also what an f-string or [%s] puts for [v]. *)
Definition str (v : pyval) : string :=
  match v with
  | PStr s => s
  | _ => repr v
  end.

(** *** Truth, equality, containers *)

(** [bool(v)] *)
Definition truthy (v : pyval) : bool :=
  match v with
  | PNone => false
  | PBool b => b
  | PInt z => negb (z =? 0)
  | PStr s => negb (String.eqb s EmptyString)
  | PList l => match l with [] => false | _ => true end
  | PDict d => match d with [] => false | _ => true end
  end.

(** [v == n] for an [int] [n]; [True == 1] and [False == 0] hold. *)
Definition eq_int (v : pyval) (n : Z) : bool :=
  match v with
  | PInt z => z =? n
  | PBool b => Z.b2z b =? n
  | _ => false
  end.

(** [isinstance(v, int)]; [bool] is a subclass of [int]. *)
Definition isinstance_int (v : pyval) : bool :=
  match v with
  | PInt _ | PBool _ => true
  | _ => false
  end.

Fixpoint assoc (k : string) (d : list (string * pyval)) : option pyval :=
  match d with
  | [] => None
  | (k', v) :: d' => if String.eqb k k' then Some v else assoc k d'
  end.

(** [v.get(k, dflt)]: only a [dict] has [get]. *)
Definition get (v : pyval) (k : string) (dflt : pyval) : exn + pyval :=
  match v with
  | PDict d => inr (default dflt (assoc k d))
  | _ => inl AttributeError
  end.

(** [v[k]] for a [str] key. *)
Definition getitem (v : pyval) (k : string) : exn + pyval :=
  match v with
  | PDict d => match assoc k d with Some x => inr x | None => inl (KeyError k) end
  | _ => inl TypeError
  end.

Definition is_str (k : string) (v : pyval) : bool :=
  match v with
  | PStr s => String.eqb k s
  | _ => false
  end.

(** [k in v] for a [str] key. *)
Definition key_in (k : string) (v : pyval) : exn + bool :=
  match v with
  | PDict d => inr (match assoc k d with Some _ => true | None => false end)
  | PList l => inr (existsb (is_str k) l)
  | PStr s => inr (contains k s)
  | _ => inl TypeError
  end.

Fixpoint chars (s : string) : list pyval :=
  match s with
  | EmptyString => []
  | String c s' => PStr (String c EmptyString) :: chars s'
  end.

(** The elements [for x in v] visits, which are also what
    [list.extend(v)] appends. *)
Definition iter (v : pyval) : exn + list pyval :=
  match v with
  | PList l => inr l
  | PStr s => inr (chars s)
  | PDict d => inr (List.map (fun kv => PStr (fst kv)) d)
  | _ => inl TypeError
  end.

(** [len(v)] *)
Definition len (v : pyval) : exn + Z :=
  match v with
  | PList l => inr (Z.of_nat (length l))
  | PStr s => inr (Z.of_nat (String.length s))
  | PDict d => inr (Z.of_nat (length d))
  | _ => inl TypeError
  end.

End Py.

(** ** The remote service, events and computations *)

(** What [requests] hands back: [r.status_code], [r.text], and what
    [r.json()] decodes, [None] when the body is no JSON document. *)
Record response : Type := mkResponse {
  status_code : Z;
  text : string;
  json : option pyval
}.

(** A call either gets a response or fails on the way (refused
    connection, timeout), which [requests] reports by raising. *)
Inductive http_result : Type :=
| ConnectionFailed
| Replied (r : response).

(** Query parameters of a GET, [None] when the caller gives none. *)
Abbreviation query := (option (list (string * Z))).

(** The service behind [requests.get] and [requests.post], with a state of
    its own.  The headers and the timeout are the same on every call of the
    script and are not arguments here. *)
Class Remote (World : Type) : Type := {
  requests_get : string -> query -> World -> http_result * World;
  requests_post : string -> pyval -> World -> http_result * World
}.

(** The three counters of [summary]. *)
Record Summary : Type := mkSummary {
  copied : Z;
  skipped : Z;
  errors : Z
}.

Inductive log_level : Type := INFO | ERROR.

(** One constructor per logging call of the script, holding its arguments. *)
Inductive log_record : Type :=
| LogBuildingMapping
| LogLoadedCases (n : nat) (project : string)
| LogMappingKeys (n : nat)
| LogNoMappingIdInA
| LogFetchingResults
| LogFetched (n : nat) (project : string)
| LogFiltered (n : nat) (run : Z)
| LogSkippingCase (case_id : pyval)
| LogNoMappingFor (mapping_value : string)
| LogCopied (mapping_value : string) (target_case_id : pyval)
| LogPostError (e : exn)
| LogDone
| LogSummary (s : Summary).

Inductive event : Type :=
| EGet (url : string) (params : query)
| EPost (url : string) (payload : pyval)
| ELog (lvl : log_level) (r : log_record)
| EDumpSummary (path : string) (s : Summary).

Inductive outcome (A : Type) : Type :=
| Ok (a : A)
| Raised (e : exn)
| OutOfFuel.
Arguments Ok {A} a.
Arguments Raised {A} e.
Arguments OutOfFuel {A}.

(** A computation: from the state of the remote service to an outcome,
    the state reached and the events emitted on the way. *)
Definition M (World A : Type) : Type := World -> outcome A * World * list event.

Section Monad.
Context {World : Type}.

Definition ret {A} (a : A) : M World A := fun w => (Ok a, w, []).

Definition raise {A} (e : exn) : M World A := fun w => (Raised e, w, []).

Definition out_of_fuel {A} : M World A := fun w => (OutOfFuel, w, []).

Definition bind {A B} (m : M World A) (k : A -> M World B) : M World B :=
  fun w =>
    match m w with
    | (Ok a, w1, t1) =>
        match k a w1 with
        | (o, w2, t2) => (o, w2, t1 ++ t2)
        end
    | (Raised e, w1, t1) => (Raised e, w1, t1)
    | (OutOfFuel, w1, t1) => (OutOfFuel, w1, t1)
    end.

(** [try: m  except Exception as e: h e] *)
Definition try_except {A} (m : M World A) (h : exn -> M World A) : M World A :=
  fun w =>
    match m w with
    | (Raised e, w1, t1) =>
        match h e w1 with
        | (o, w2, t2) => (o, w2, t1 ++ t2)
        end
    | r => r
    end.

(** A pure step that may raise. *)
Definition lift {A} (r : exn + A) : M World A :=
  match r with
  | inl e => raise e
  | inr a => ret a
  end.

Definition emit (e : event) : M World unit := fun w => (Ok tt, w, [e]).

Definition logging_info (r : log_record) : M World unit := emit (ELog INFO r).
Definition logging_error (r : log_record) : M World unit := emit (ELog ERROR r).

End Monad.

Notation "'do' x <- m ;; k" := (bind m (fun x => k))
  (at level 10, x name, m at level 99, k at level 200).
Notation "'run' m ;; k" := (bind m (fun _ => k))
  (at level 10, m at level 99, k at level 200).

(** The same sequencing for pure steps that may raise. *)
Definition ebind {A B} (r : exn + A) (k : A -> exn + B) : exn + B :=
  match r with
  | inl e => inl e
  | inr a => k a
  end.
Notation "'try' x <- r ;; k" := (ebind r (fun x => k))
  (at level 10, x name, r at level 99, k at level 200).

(** ** The script *)

Definition QASE_API_BASE : string := "https://api.qase.io/v1".
Definition MAPPING_FIELD_ID : Z := 1.

Section Script.
Context {World : Type} `{Remote World}.

(** *** HTTP helpers *)

Definition http_get (url : string) (params : query) : M World response :=
  fun w =>
    match requests_get url params w with
    | (ConnectionFailed, w') => (Raised RequestException, w', [EGet url params])
    | (Replied r, w') => (Ok r, w', [EGet url params])
    end.

Definition http_post (url : string) (payload : pyval) : M World response :=
  fun w =>
    match requests_post url payload w with
    | (ConnectionFailed, w') => (Raised RequestException, w', [EPost url payload])
    | (Replied r, w') => (Ok r, w', [EPost url payload])
    end.

(** [r.json()] *)
Definition response_json (r : response) : M World pyval :=
  match json r with
  | Some v => ret v
  | None => raise JSONDecodeError
  end.

Definition failed_message (verb url : string) (r : response) : string :=
  verb +:+ " " +:+ url +:+ " failed: " +:+ Py.str_of_int (status_code r) +:+ " " +:+ text r.

Definition api_get (url : string) (params : query) : M World pyval :=
  do r <- http_get url params ;;
  if negb (status_code r =? 200)
  then raise (RuntimeError (failed_message "GET" url r))
  else response_json r.

Definition api_post (url : string) (payload : pyval) : M World pyval :=
  do r <- http_post url payload ;;
  if negb ((status_code r =? 200) || (status_code r =? 201))
  then raise (RuntimeError (failed_message "POST" url r))
  else response_json r.

(** *** Pagination helper *)

Definition container_keys : list string := ["entities"; "items"; "results"; "cases"].

(** The [for key in (...)] loop of [paginate]: the value under the first
    key present, [None] when there is none. *)
Fixpoint find_entities (result : pyval) (keys : list string) : exn + pyval :=
  match keys with
  | [] => inr PNone
  | key :: keys' =>
      try present <- Py.key_in key result ;;
      if (present : bool) then Py.getitem result key else find_entities result keys'
  end.

Definition page_params (page : Z) : query := Some [("page", page); ("limit", 100)].

(** The [while True] loop of [paginate], entered with the current [page]
    and [items]. *)
Fixpoint paginate_loop (fuel : nat) (url : string) (page : Z) (items : list pyval)
  : M World (list pyval) :=
  match fuel with
  | O => out_of_fuel
  | S fuel' =>
      do resp <- api_get url (page_params page) ;;
      do result <- lift (Py.get resp "result" (PDict [])) ;;
      do entities <- lift (find_entities result container_keys) ;;
      if negb (Py.truthy entities) then ret items
      else
        do more <- lift (Py.iter entities) ;;
        let items := items ++ more in
        do n <- lift (Py.len entities) ;;
        if n <? 100 then ret items
        else paginate_loop fuel' url (page + 1) items
  end.

Definition paginate (fuel : nat) (url : string) : M World (list pyval) :=
  paginate_loop fuel url 1 [].

(** *** Qase helpers *)

Definition get_all_cases (fuel : nat) (project : string) : M World (list pyval) :=
  paginate fuel (QASE_API_BASE +:+ "/case/" +:+ project).

Definition get_case (project : string) (case_id : pyval) : M World pyval :=
  do resp <- api_get (QASE_API_BASE +:+ "/case/" +:+ project +:+ "/" +:+ Py.str case_id) None ;;
  lift (Py.get resp "result" PNone).

Definition get_all_results (fuel : nat) (project : string) : M World (list pyval) :=
  paginate fuel (QASE_API_BASE +:+ "/result/" +:+ project).

Definition post_result (project : string) (run_id : Z) (payload : pyval) : M World pyval :=
  api_post (QASE_API_BASE +:+ "/result/" +:+ project +:+ "/" +:+ Py.str_of_int run_id) payload.

(** *** Mapping helpers *)

(** The [for item in cf_list] loop of [extract_custom_field_value]. *)
Fixpoint extract_loop (items : list pyval) (field_id : Z) : exn + option string :=
  match items with
  | [] => inr None
  | item :: rest =>
      try id <- Py.get item "id" PNone ;;
      if Py.eq_int id field_id
      then try value <- Py.get item "value" PNone ;;
           inr (Some (Py.strip (Py.str value)))
      else extract_loop rest field_id
  end.

Definition extract_custom_field_value (cf_list : pyval) (field_id : Z)
  : exn + option string :=
  try items <- Py.iter cf_list ;;
  extract_loop items field_id.

(** [if mapping_value:] on what [extract_custom_field_value] returned:
    the string when it is one and is not empty. *)
Definition if_truthy (mapping_value : option string) : option string :=
  match mapping_value with
  | Some s => if String.eqb s EmptyString then None else Some s
  | None => None
  end.

(** The body of the [for case in cases] loop of [build_mapping]. *)
Definition build_mapping_step (mapping : gmap string pyval) (case : pyval)
  : exn + gmap string pyval :=
  try cf_list <- Py.get case "custom_fields" (PList []) ;;
  try mapping_value <- extract_custom_field_value cf_list MAPPING_FIELD_ID ;;
  match if_truthy mapping_value with
  | Some mv =>
      try id <- Py.getitem case "id" ;;
      inr (<[mv := id]> mapping)
  | None => inr mapping
  end.

Fixpoint build_mapping_loop (cases : list pyval) (mapping : gmap string pyval)
  : exn + gmap string pyval :=
  match cases with
  | [] => inr mapping
  | case :: rest =>
      try mapping <- build_mapping_step mapping case ;;
      build_mapping_loop rest mapping
  end.

Definition build_mapping (fuel : nat) (project : string) : M World (gmap string pyval) :=
  do cases <- get_all_cases fuel project ;;
  run logging_info (LogLoadedCases (length cases) project) ;;
  lift (build_mapping_loop cases ∅).

Definition status_mapping : gmap string Z :=
  <["passed" := 1]> (<["failed" := 5]> (<["skipped" := 2]> (<["blocked" := 3]> ∅))).

Definition convert_status (s : pyval) : pyval :=
  if Py.isinstance_int s then s
  else PInt (default 4 (status_mapping !! Py.lower (Py.str s))).

(** *** Main logic *)

(** [[r for r in all_results if r.get("run_id") == run_b]] *)
Fixpoint filter_run (all_results : list pyval) (run_b : Z) : exn + list pyval :=
  match all_results with
  | [] => inr []
  | r :: rest =>
      try run_id <- Py.get r "run_id" PNone ;;
      try kept <- filter_run rest run_b ;;
      inr (if Py.eq_int run_id run_b then r :: kept else kept)
  end.

Definition add_copied (s : Summary) : Summary :=
  mkSummary (copied s + 1) (skipped s) (errors s).
Definition add_skipped (s : Summary) : Summary :=
  mkSummary (copied s) (skipped s + 1) (errors s).
Definition add_errors (s : Summary) : Summary :=
  mkSummary (copied s) (skipped s) (errors s + 1).

Definition make_payload (target_case_id status_raw : pyval) (project_b : string) (run_b : Z)
  : pyval :=
  PDict [("case_id", target_case_id);
         ("status", PStr (Py.lower (Py.str status_raw)));
         ("comment", PStr ("Copied from " +:+ project_b +:+ " run " +:+ Py.str_of_int run_b))].

(** The body of the [for res in results_b] loop: the summary after [res]. *)
Definition copy_one (project_a : string) (run_a : Z) (project_b : string) (run_b : Z)
    (mapping_a : gmap string pyval) (summary : Summary) (res : pyval) : M World Summary :=
  do case_id_b <- lift (Py.get res "case_id" PNone) ;;
  do status_raw <- lift (Py.get res "status" PNone) ;;
  do case_b <- get_case project_b case_id_b ;;
  if negb (Py.truthy case_b) then ret (add_errors summary)
  else
    do cf_list <- lift (Py.get case_b "custom_fields" (PList [])) ;;
    do mapping_value <- lift (extract_custom_field_value cf_list MAPPING_FIELD_ID) ;;
    match if_truthy mapping_value with
    | None =>
        run logging_info (LogSkippingCase case_id_b) ;;
        ret (add_skipped summary)
    | Some mv =>
        let target_case_id := default PNone (mapping_a !! mv) in
        if negb (Py.truthy target_case_id)
        then
          run logging_info (LogNoMappingFor mv) ;;
          ret (add_skipped summary)
        else
          let payload := make_payload target_case_id status_raw project_b run_b in
          try_except
            (run post_result project_a run_a payload ;;
             run logging_info (LogCopied mv target_case_id) ;;
             ret (add_copied summary))
            (fun e =>
               run logging_error (LogPostError e) ;;
               ret (add_errors summary))
    end.

Fixpoint copy_loop (project_a : string) (run_a : Z) (project_b : string) (run_b : Z)
    (mapping_a : gmap string pyval) (results_b : list pyval) (summary : Summary)
  : M World Summary :=
  match results_b with
  | [] => ret summary
  | res :: rest =>
      do summary <- copy_one project_a run_a project_b run_b mapping_a summary res ;;
      copy_loop project_a run_a project_b run_b mapping_a rest summary
  end.

(** Everything of [copy_results] after the mapping of project A was
    found not to be empty. *)
Definition copy_from (fuel : nat) (project_a : string) (run_a : Z)
    (project_b : string) (run_b : Z) (mapping_a : gmap string pyval) : M World unit :=
  run logging_info LogFetchingResults ;;
  do all_results <- get_all_results fuel project_b ;;
  run logging_info (LogFetched (length all_results) project_b) ;;
  do results_b <- lift (filter_run all_results run_b) ;;
  run logging_info (LogFiltered (length results_b) run_b) ;;
  do summary <- copy_loop project_a run_a project_b run_b mapping_a results_b
                          (mkSummary 0 0 0) ;;
  run emit (EDumpSummary "summary.json" summary) ;;
  run logging_info LogDone ;;
  logging_info (LogSummary summary).

Definition copy_results (fuel : nat) (project_a : string) (run_a : Z)
    (project_b : string) (run_b : Z) : M World unit :=
  run logging_info LogBuildingMapping ;;
  do mapping_a <- build_mapping fuel project_a ;;
  run logging_info (LogMappingKeys (size mapping_a)) ;;
  if Nat.eqb (size mapping_a) 0
  then logging_error LogNoMappingIdInA
  else copy_from fuel project_a run_a project_b run_b mapping_a.

End Script.

(** ** Notions the statements use *)

(** The value of the first key of [keys] present in a [dict]. *)
Fixpoint first_present (keys : list string) (result : list (string * pyval)) : option pyval :=
  match keys with
  | [] => None
  | key :: keys' =>
      match Py.assoc key result with
      | Some v => Some v
      | None => first_present keys' result
      end
  end.

(** [body] is a response envelope holding the list [items]: a [dict] whose
    ["result"] is a [dict] in which the first container key present holds
    the list. *)
Definition wraps (body : pyval) (items : list pyval) : Prop :=
  exists top result,
    body = PDict top /\
    Py.assoc "result" top = Some (PDict result) /\
    first_present container_keys result = Some (PList items).

(** The page numbered [page] (from 1) of [coll], 100 items a page. *)
Definition page_of (coll : list pyval) (page : Z) : list pyval :=
  take 100 (drop (100 * (Z.to_nat page - 1)) coll).

(** The remote service serves [coll] at [url] in pages of 100, in every
    state satisfying [Inv]. *)
Definition serves_pages {World : Type} `{Remote World}
    (Inv : World -> Prop) (url : string) (coll : list pyval) : Prop :=
  forall w page, Inv w -> 1 <= page ->
    exists r w' body,
      requests_get url (page_params page) w = (Replied r, w') /\
      status_code r = 200 /\
      json r = Some body /\
      wraps body (page_of coll page) /\
      Inv w'.

(** The page requests numbered [page], [page + 1], ... ([n] of them). *)
Definition page_requests (url : string) (page : Z) (n : nat) : list event :=
  List.map (fun i => EGet url (page_params (page + Z.of_nat i))) (seq 0 n).

(** The mapping value a case carries, if any: what [build_mapping] and
    [copy_results] compute from its custom fields before they test it. *)
Definition carried_value (case : pyval) : exn + option string :=
  try cf_list <- Py.get case "custom_fields" (PList []) ;;
  try mapping_value <- extract_custom_field_value cf_list MAPPING_FIELD_ID ;;
  inr (if_truthy mapping_value).

(** [r.get("run_id") == run_b] for a result that is a [dict]. *)
Definition in_run (run_b : Z) (r : pyval) : bool :=
  match Py.get r "run_id" PNone with
  | inr run_id => Py.eq_int run_id run_b
  | inl _ => false
  end.

Definition total (s : Summary) : Z := copied s + skipped s + errors s.

Definition is_post (e : event) : bool :=
  match e with
  | EPost _ _ => true
  | _ => false
  end.

Definition is_dump (e : event) : bool :=
  match e with
  | EDumpSummary _ _ => true
  | _ => false
  end.

(** How a POST goes wrong for [api_post]: no response, a status other than
    200 and 201, or a body that is no JSON document. *)
Definition post_failure (url : string) (hr : http_result) : option exn :=
  match hr with
  | ConnectionFailed => Some RequestException
  | Replied r =>
      if negb ((status_code r =? 200) || (status_code r =? 201))
      then Some (RuntimeError (failed_message "POST" url r))
      else match json r with
           | Some _ => None
           | None => Some JSONDecodeError
           end
  end.

(** Every event [m] emits, whatever its outcome, satisfies [P]. *)
Definition emits_only {World A : Type} (P : event -> Prop) (m : M World A) : Prop :=
    forall w o w' t, m w = (o, w', t) -> Forall P t.

(** The result [res] resolves to the mapping value [mv]: its case is
      fetched from project B (from the state [w], reaching [w1] and emitting
      [t1]), is truthy and carries [mv]; [status_raw] is its status. *)
Definition resolves {World : Type} `{Remote World} (project_b : string) (res : pyval)
      (w : World) (status_raw : pyval) (mv : string) (w1 : World) (t1 : list event) : Prop :=
    exists case_id_b case_b,
      Py.get res "case_id" PNone = inr case_id_b /\
      Py.get res "status" PNone = inr status_raw /\
      get_case project_b case_id_b w = (Ok case_b, w1, t1) /\
      Py.truthy case_b = true /\
      carried_value case_b = inr (Some mv).

(** The part of the body of the loop of [copy_results] that follows the
      fetch of the case and the extraction of the value it carries. *)
Definition after_case {World : Type} `{Remote World} (project_a : string) (run_a : Z)
    (project_b : string) (run_b : Z)
      (mapping_a : gmap string pyval) (summary : Summary) (case_id_b status_raw : pyval)
      (carried : option string) : M World Summary :=
    match carried with
    | None =>
        run logging_info (LogSkippingCase case_id_b) ;;
        ret (add_skipped summary)
    | Some mv =>
        let target_case_id := default PNone (mapping_a !! mv) in
        if negb (Py.truthy target_case_id)
        then
          run logging_info (LogNoMappingFor mv) ;;
          ret (add_skipped summary)
        else
          let payload := make_payload target_case_id status_raw project_b run_b in
          try_except
            (run post_result project_a run_a payload ;;
             run logging_info (LogCopied mv target_case_id) ;;
             ret (add_copied summary))
            (fun e =>
               run logging_error (LogPostError e) ;;
               ret (add_errors summary))
    end.

(** The endpoint [post_result] writes to. *)
Definition result_url (project : string) (run_id : Z) : string :=
    QASE_API_BASE +:+ "/result/" +:+ project +:+ "/" +:+ Py.str_of_int run_id.

(** ** A small remote service to run the script on *)

Module Demo.

Definition replied_json (body : pyval) : http_result :=
  Replied (mkResponse 200 "(json)" (Some body)).

Definition not_found : http_result :=
  Replied (mkResponse 404 "Not Found" None).

Definition server_error : http_result :=
  Replied (mkResponse 500 "Internal Server Error" None).

Definition envelope (key : string) (total : nat) (items : list pyval) : pyval :=
  PDict [("status", PBool true);
         ("result", PDict [("total", PInt (Z.of_nat total));
                           ("count", PInt (Z.of_nat (length items)));
                           (key, PList items)])].

Definition page_arg (q : query) : Z :=
  match q with
  | Some ((_, page) :: _) => page
  | _ => 1
  end.

(** A collection endpoint. *)
Definition paged (coll : list pyval) (q : query) : http_result :=
  replied_json (envelope "entities" (length coll) (page_of coll (page_arg q))).

(** An endpoint with one document. *)
Definition single (doc : pyval) (_ : query) : http_result :=
  replied_json (PDict [("status", PBool true); ("result", doc)]).

Fixpoint route {Q : Type} (table : list (string * (Q -> http_result))) (url : string) (q : Q)
  : http_result :=
  match table with
  | [] => not_found
  | (u, handler) :: table' => if String.eqb url u then handler q else route table' url q
  end.

(** A service without state, answering by its routing tables. *)
Definition server (gets : list (string * (query -> http_result)))
    (posts : list (string * (pyval -> http_result))) : Remote unit :=
  {| requests_get url q w := (route gets url q, w);
     requests_post url payload w := (route posts url payload, w) |}.

Definition case_with (id : Z) (value : pyval) : pyval :=
  PDict [("id", PInt id);
         ("title", PStr "case");
         ("custom_fields", PList [PDict [("id", PInt 1); ("value", value)]])].

Definition case_plain (id : Z) : pyval :=
  PDict [("id", PInt id); ("title", PStr "case"); ("custom_fields", PList [])].

Definition result_of (run_id case_id : Z) (status : string) : pyval :=
  PDict [("run_id", PInt run_id); ("case_id", PInt case_id); ("status", PStr status)].

(** Project A: two cases share the value 1001, one has the internal id 0. *)
Definition cases_a : list pyval :=
  [case_with 1 (PStr "1001"); case_with 2 (PInt 1002); case_plain 4;
   case_with 3 (PStr " 1001 "); case_with 0 (PStr "1000")].

(** Results of project B: six in run 5, one in run 6. *)
Definition results_b : list pyval :=
  [result_of 5 11 "Failed"; result_of 5 10 "PASSED"; result_of 6 10 "passed";
   result_of 5 12 "passed"; result_of 5 13 "passed"; result_of 5 14 "blocked";
   result_of 5 15 "skipped"].

(** The write fails for the destination case 2. *)
Definition post_a (payload : pyval) : http_result :=
  match Py.get payload "case_id" PNone with
  | inr (PInt 2) => server_error
  | _ => replied_json (PDict [("status", PBool true)])
  end.

Definition base_case (project : string) : string := QASE_API_BASE +:+ "/case/" +:+ project.
Definition base_result (project : string) : string := QASE_API_BASE +:+ "/result/" +:+ project.

(** Project A with the cases [cases_of_a], project B with the results
    [results_of_b] and the cases 10 to 15; case 16 of B is unknown. *)
Definition qase (cases_of_a results_of_b : list pyval) : Remote unit :=
  server
    [(base_case "A", paged cases_of_a);
     (base_result "B", paged results_of_b);
     (base_case "B" +:+ "/10", single (case_with 10 (PStr "1001")));
     (base_case "B" +:+ "/11", single (case_with 11 (PStr "1002")));
     (base_case "B" +:+ "/12", single (case_plain 12));
     (base_case "B" +:+ "/13", single (case_with 13 (PStr "9999")));
     (base_case "B" +:+ "/14", single (case_with 14 (PStr "1000")));
     (base_case "B" +:+ "/15", single PNone)]
    [(base_result "A" +:+ "/1", post_a)].

(** 250 items behind one collection endpoint. *)
Definition coll250 : list pyval :=
  List.map (fun i => PDict [("id", PInt (Z.of_nat i))]) (seq 1 250).

Definition big : Remote unit := server [(base_case "BIG", paged coll250)] [].

(** The service of the examples: project A with [cases_a], project B with
    [results_b]. *)
Definition shop : Remote unit := qase cases_a results_b.

(** The mapping [build_mapping] makes of [cases_a]. *)
Definition mapping_a : gmap string pyval :=
  <["1000" := PInt 0]> (<["1001" := PInt 3]> (<["1002" := PInt 2]> ∅)).

(** The same service with, first in run 5, a result for the unknown case 16. *)
Definition shop_unknown_case : Remote unit :=
  qase cases_a (result_of 5 16 "passed" :: results_b).

(** Project A with no mapping value on any case. *)
Definition shop_unmapped : Remote unit := qase [case_plain 1; case_plain 2] results_b.

(** Project A with one case whose mapping field holds [null]. *)
Definition shop_null_value : Remote unit := qase [case_with 7 PNone] results_b.

Definition zero : Summary := mkSummary 0 0 0.

End Demo.

(** ** Further notions and services *)

Definition is_get (e : event) : bool :=
  match e with
  | EGet _ _ => true
  | _ => false
  end.

Definition is_dict (v : pyval) : bool :=
  match v with
  | PDict _ => true
  | _ => false
  end.

(** The endpoint [get_case] reads. *)
Definition case_url (project : string) (case_id : pyval) : string :=
  QASE_API_BASE +:+ "/case/" +:+ project +:+ "/" +:+ Py.str case_id.

(** [res.get("case_id")] for a result that is a [dict]. *)
Definition case_id_of (res : pyval) : pyval :=
  match Py.get res "case_id" PNone with
  | inr case_id => case_id
  | inl _ => PNone
  end.

(** The number of POSTs among some events. *)
Definition posts (t : list event) : nat := length (List.filter is_post t).


(** What a run that reaches its end emits last. *)
Definition summary_tail (s : Summary) : list event :=
  [EDumpSummary "summary.json" s; ELog INFO LogDone; ELog INFO (LogSummary s)].

(** [m] dumps a summary only as the last thing it does, with the two log
    records that follow, and then it has ended normally; otherwise it
    dumps nothing. *)
Definition dumps_last {World : Type} (m : M World unit) : Prop :=
  forall w o w' t, m w = (o, w', t) ->
    (o = Ok tt /\
     exists before s, t = before ++ summary_tail s /\
                      Forall (fun e => is_dump e = false) before) \/
    Forall (fun e => is_dump e = false) t.

Module Scenarios.

(** 200 items, two full pages. *)
Definition coll200 : list pyval := take 200 Demo.coll250.

Definition even : Remote unit :=
  Demo.server [(Demo.base_case "EVEN", Demo.paged coll200)] [].

(** Nothing is known to this service: every request is answered 404. *)
Definition down : Remote unit := Demo.server [] [].

(** Project A is served, the results of project B are not. *)
Definition no_results : Remote unit :=
  Demo.server [(Demo.base_case "A", Demo.paged Demo.cases_a)] [].

(** The service of [Demo.shop], except that a write is acknowledged with
    200 and a body that is no JSON document. *)
Definition plain_ack : Remote unit :=
  Demo.server
    [(Demo.base_case "A", Demo.paged Demo.cases_a);
     (Demo.base_result "B", Demo.paged Demo.results_b);
     (Demo.base_case "B" +:+ "/10", Demo.single (Demo.case_with 10 (PStr "1001")))]
    [(Demo.base_result "A" +:+ "/1",
      fun _ => Replied (mkResponse 200 "OK" None))].

(** Project A with a second case whose custom fields are [null]. *)
Definition null_fields : Remote unit :=
  Demo.qase [Demo.case_with 1 (PStr "1001");
             PDict [("id", PInt 2); ("custom_fields", PNone)];
             Demo.case_with 3 (PStr "1003")]
            Demo.results_b.

(** Project A with a second case that has a mapping value and no id. *)
Definition no_id : Remote unit :=
  Demo.qase [Demo.case_with 1 (PStr "1001");
             PDict [("custom_fields", PList [PDict [("id", PInt 1); ("value", PStr "1002")]])]]
            Demo.results_b.

End Scenarios.

(** ** Properties *)

(** *** Status translation *)

Lemma status_mapping_other (k : string) :
  k <> "passed" -> k <> "failed" -> k <> "skipped" -> k <> "blocked" ->
  status_mapping !! k = None.
Proof.
  intros H1 H2 H3 H4. unfold status_mapping.
  rewrite !lookup_insert_ne by congruence. apply lookup_empty.
Qed.

(** [bool] being a subclass of [int], a boolean status goes through
    unchanged as well. *)
Lemma convert_status_bool (b : bool) : convert_status (PBool b) = PBool b.
Proof. reflexivity. Qed.

(** C4. [convert_status] is a total function of its argument alone.  An
    [int] comes back unchanged.  Any value that is no [int] is stringified
    and lower-cased, and the outcome is 1 for passed, 5 for failed, 2 for
    skipped, 3 for blocked and 4 for everything else, [None] and unexpected
    strings included. *)
Theorem convert_status_total :
  (forall z : Z, convert_status (PInt z) = PInt z) /\
  (forall v : pyval, Py.isinstance_int v = false ->
     let k := Py.lower (Py.str v) in
     (k = "passed" -> convert_status v = PInt 1) /\
     (k = "failed" -> convert_status v = PInt 5) /\
     (k = "skipped" -> convert_status v = PInt 2) /\
     (k = "blocked" -> convert_status v = PInt 3) /\
     (k <> "passed" -> k <> "failed" -> k <> "skipped" -> k <> "blocked" ->
      convert_status v = PInt 4)) /\
  convert_status PNone = PInt 4 /\
  convert_status (PStr "PASSED") = PInt 1 /\
  convert_status (PStr "Skipped") = PInt 2 /\
  convert_status (PStr "blocked") = PInt 3 /\
  convert_status (PStr "failed") = PInt 5 /\
  convert_status (PStr "weird-value") = PInt 4 /\
  convert_status (PInt 7) = PInt 7.
Proof.
  split; [reflexivity |].
  split; [| repeat split; vm_compute; reflexivity].
  intros v Hv k. unfold convert_status. rewrite Hv. fold k.
  repeat split.
  - intros ->. reflexivity.
  - intros ->. reflexivity.
  - intros ->. reflexivity.
  - intros ->. reflexivity.
  - intros H1 H2 H3 H4. now rewrite status_mapping_other.
Qed.

(** *** The mapping table *)

Lemma build_mapping_step_carried (mapping : gmap string pyval) (case : pyval) :
  build_mapping_step mapping case =
  match carried_value case with
  | inl e => inl e
  | inr (Some mv) => try id <- Py.getitem case "id" ;; inr (<[mv := id]> mapping)
  | inr None => inr mapping
  end.
Proof.
  unfold build_mapping_step, carried_value.
  destruct (Py.get case "custom_fields" (PList [])) as [e | cf]; simpl; [reflexivity |].
  destruct (extract_custom_field_value cf MAPPING_FIELD_ID) as [e | mv]; simpl; [reflexivity |].
  destruct (if_truthy mv); reflexivity.
Qed.

(** A case that does not carry [v] leaves the entry of [v] alone. *)
Lemma build_mapping_step_other (mapping mapping' : gmap string pyval) (case : pyval) (v : string) :
  build_mapping_step mapping case = inr mapping' ->
  carried_value case <> inr (Some v) ->
  mapping' !! v = mapping !! v.
Proof.
  rewrite build_mapping_step_carried.
  destruct (carried_value case) as [e | [mv |]]; simpl; intros Hstep Hne.
  - discriminate.
  - destruct (Py.getitem case "id") as [e | id]; simpl in Hstep; [discriminate |].
    injection Hstep as <-. apply lookup_insert_ne. congruence.
  - now injection Hstep as <-.
Qed.

(** A case that carries [v] sets the entry of [v] to its own id. *)
Lemma build_mapping_step_carrier (mapping mapping' : gmap string pyval) (case id : pyval)
    (v : string) :
  build_mapping_step mapping case = inr mapping' ->
  carried_value case = inr (Some v) ->
  Py.getitem case "id" = inr id ->
  mapping' !! v = Some id.
Proof.
  rewrite build_mapping_step_carried. intros Hstep Hc Hid. rewrite Hc, Hid in Hstep.
  simpl in Hstep. injection Hstep as <-. apply lookup_insert_eq.
Qed.

Lemma build_mapping_loop_other (v : string) (cases : list pyval) :
  forall mapping mapping' : gmap string pyval,
  build_mapping_loop cases mapping = inr mapping' ->
  (forall c, In c cases -> carried_value c <> inr (Some v)) ->
  mapping' !! v = mapping !! v.
Proof.
  induction cases as [| c cases IH]; simpl; intros mapping mapping' Hloop Hne.
  - now injection Hloop as <-.
  - destruct (build_mapping_step mapping c) as [e | m1] eqn:Hstep; simpl in Hloop;
      [discriminate |].
    rewrite (IH _ _ Hloop) by auto.
    eapply build_mapping_step_other; eauto.
Qed.

Lemma build_mapping_loop_last (v : string) (id c : pyval) (post pre : list pyval) :
  forall mapping mapping' : gmap string pyval,
  build_mapping_loop (pre ++ c :: post) mapping = inr mapping' ->
  carried_value c = inr (Some v) ->
  Py.getitem c "id" = inr id ->
  (forall c', In c' post -> carried_value c' <> inr (Some v)) ->
  mapping' !! v = Some id.
Proof.
  induction pre as [| c0 pre IH]; simpl; intros mapping mapping' Hloop Hc Hid Hpost.
  - destruct (build_mapping_step mapping c) as [e | m1] eqn:Hstep; simpl in Hloop;
      [discriminate |].
    rewrite (build_mapping_loop_other v post _ _ Hloop Hpost).
    eapply build_mapping_step_carrier; eauto.
  - destruct (build_mapping_step mapping c0) as [e | m1]; simpl in Hloop; [discriminate |].
    eapply IH; eauto.
Qed.

(** What keeps a case out of the table: no entry for the mapping field ... *)
Lemma extract_loop_absent (field_id : Z) (items : list pyval) :
  Forall (fun item => exists d, item = PDict d /\
                                Py.eq_int (default PNone (Py.assoc "id" d)) field_id = false)
         items ->
  extract_loop items field_id = inr None.
Proof.
  induction 1 as [| item items (d & -> & Hid) _ IH]; [reflexivity |].
  cbn. now rewrite Hid.
Qed.

(** ... or a first entry for it whose stringified value strips to nothing. *)
Lemma carried_value_blank (d entry : list (string * pyval)) (rest : list pyval) :
  Py.assoc "custom_fields" d = Some (PList (PDict entry :: rest)) ->
  Py.eq_int (default PNone (Py.assoc "id" entry)) MAPPING_FIELD_ID = true ->
  Py.strip (Py.str (default PNone (Py.assoc "value" entry))) = EmptyString ->
  carried_value (PDict d) = inr None.
Proof.
  intros Hcf Hid Hblank. unfold carried_value. cbn. rewrite Hcf. cbn.
  now rewrite Hid, Hblank.
Qed.

(** *** Computations *)

Section Effects.
Context {World : Type} `{Remote World}.

Lemma bind_ok {A B} (m : M World A) (k : A -> M World B) (w w1 : World) (a : A)
    (t1 : list event) :
  m w = (Ok a, w1, t1) ->
  bind m k w = (let '(o, w2, t2) := k a w1 in (o, w2, t1 ++ t2)).
Proof. intros Hm. unfold bind. rewrite Hm. now destruct (k a w1) as [[o w2] t2]. Qed.

Lemma bind_raised {A B} (m : M World A) (k : A -> M World B) (w w1 : World) (e : exn)
    (t1 : list event) :
  m w = (Raised e, w1, t1) ->
  bind m k w = (Raised e, w1, t1).
Proof. intros Hm. unfold bind. now rewrite Hm. Qed.

Lemma bind_ext {A B} (m : M World A) (k k' : A -> M World B) (w : World) :
  (forall a w1, k a w1 = k' a w1) -> bind m k w = bind m k' w.
Proof.
  intros Hk. unfold bind. destruct (m w) as [[[a | e |] w1] t1]; [| reflexivity ..].
  now rewrite Hk.
Qed.

Lemma bind_inv_ok {A B} (m : M World A) (k : A -> M World B) (w w2 : World) (b : B)
    (t : list event) :
  bind m k w = (Ok b, w2, t) ->
  exists a w1 t1 t2, m w = (Ok a, w1, t1) /\ k a w1 = (Ok b, w2, t2) /\ t = t1 ++ t2.
Proof.
  unfold bind. destruct (m w) as [[[a | e |] w1] t1]; try discriminate.
  destruct (k a w1) as [[o w3] t2] eqn:Hk. intros [= -> -> <-].
  now exists a, w1, t1, t2.
Qed.

Lemma lift_inv_ok {A} (r : exn + A) (w w' : World) (a : A) (t : list event) :
  lift r w = (Ok a, w', t) -> r = inr a /\ w' = w /\ t = [].
Proof. destruct r as [e | a0]; simpl; unfold raise, ret; intros [= ]; subst; auto. Qed.

Lemma bind_lift_inr {A B} (a : A) (k : A -> M World B) (w : World) :
  bind (lift (inr a)) k w = k a w.
Proof. unfold bind, lift, ret. now destruct (k a w) as [[o w2] t2]. Qed.

Lemma bind_lift_inl {A B} (e : exn) (k : A -> M World B) (w : World) :
  bind (lift (inl e)) k w = (Raised e, w, []).
Proof. reflexivity. Qed.

Lemma bind_emit {B} (e : event) (k : unit -> M World B) (w : World) :
  bind (emit e) k w = (let '(o, w2, t2) := k tt w in (o, w2, e :: t2)).
Proof. unfold bind, emit. now destruct (k tt w) as [[o w2] t2]. Qed.

Lemma try_except_inv_ok {A} (m : M World A) (h : exn -> M World A) (w w2 : World) (a : A)
    (t : list event) :
  try_except m h w = (Ok a, w2, t) ->
  m w = (Ok a, w2, t) \/
  exists e w1 t1 t2, m w = (Raised e, w1, t1) /\ h e w1 = (Ok a, w2, t2) /\ t = t1 ++ t2.
Proof.
  unfold try_except. destruct (m w) as [[[a0 | e |] w1] t1]; try discriminate; auto.
  destruct (h e w1) as [[o w3] t2] eqn:Hh. intros [= -> -> <-].
  right. now exists e, w1, t1, t2.
Qed.

(** *** Pagination *)

Lemma find_entities_dict (result : list (string * pyval)) (keys : list string) :
  find_entities (PDict result) keys = inr (default PNone (first_present keys result)).
Proof.
  induction keys as [| key keys IH]; simpl; [reflexivity |].
  destruct (Py.assoc key result); simpl; [reflexivity | exact IH].
Qed.

Lemma api_get_ok (url : string) (params : query) (w w' : World) (r : response) (body : pyval) :
  requests_get url params w = (Replied r, w') ->
  status_code r = 200 ->
  json r = Some body ->
  api_get url params w = (Ok body, w', [EGet url params]).
Proof.
  intros Hreq Hstatus Hjson. unfold api_get, http_get, response_json, bind.
  now rewrite Hreq, Hstatus, Hjson.
Qed.

Lemma paginate_loop_S (fuel : nat) (url : string) (page : Z) (items : list pyval) :
  paginate_loop (S fuel) url page items =
  (do resp <- api_get url (page_params page) ;;
   do result <- lift (Py.get resp "result" (PDict [])) ;;
   do entities <- lift (find_entities result container_keys) ;;
   if negb (Py.truthy entities) then ret items
   else
     do more <- lift (Py.iter entities) ;;
     do n <- lift (Py.len entities) ;;
     if n <? 100 then ret (items ++ more)
     else paginate_loop fuel url (page + 1) (items ++ more)).
Proof. reflexivity. Qed.

(** One turn of the loop of [paginate] on a page the service answers
    with an envelope. *)
Lemma paginate_loop_step (fuel : nat) (url : string) (page : Z) (acc items : list pyval)
    (w w' : World) (r : response) (body : pyval) :
  requests_get url (page_params page) w = (Replied r, w') ->
  status_code r = 200 ->
  json r = Some body ->
  wraps body items ->
  paginate_loop (S fuel) url page acc w =
  if (length items <? 100)%nat
  then (Ok (acc ++ items), w', [EGet url (page_params page)])
  else let '(o, w2, t2) := paginate_loop fuel url (page + 1) (acc ++ items) w' in
       (o, w2, EGet url (page_params page) :: t2).
Proof.
  intros Hreq Hstatus Hjson (top & result & -> & Htop & Hfirst).
  rewrite paginate_loop_S, (bind_ok _ _ _ _ _ _ (api_get_ok _ _ _ _ _ _ Hreq Hstatus Hjson)).
  cbn [Py.get]. rewrite Htop. cbn [default from_option id]. rewrite bind_lift_inr. cbv beta.
  rewrite find_entities_dict, Hfirst. cbn [default from_option id]. rewrite bind_lift_inr. cbv beta.
  destruct items as [| x items].
  - cbn. now rewrite app_nil_r.
  - cbn [Py.truthy negb Py.iter Py.len]. rewrite bind_lift_inr. cbv beta.
    rewrite bind_lift_inr. cbv beta.
    replace (Z.of_nat (length (x :: items)) <? 100) with (length (x :: items) <? 100)%nat.
    + destruct (length (x :: items) <? 100)%nat; [reflexivity |].
      now destruct (paginate_loop fuel url (page + 1) (acc ++ x :: items) w') as [[o w2] t2].
    + destruct (Nat.ltb_spec (length (x :: items)) 100); symmetry;
        [apply Z.ltb_lt | apply Z.ltb_ge]; lia.
Qed.

Lemma page_requests_cons (url : string) (page : Z) (n : nat) :
  page_requests url page (S n) = EGet url (page_params page) :: page_requests url (page + 1) n.
Proof.
  unfold page_requests. cbn [seq List.map]. rewrite Z.add_0_r. f_equal.
  rewrite <- seq_shift, List.map_map. apply List.map_ext. intros i.
  do 2 f_equal. lia.
Qed.

(** Reading a served collection from the page where [rest] starts: the
    loop returns after [length rest / 100 + 1] requests with all of [rest]
    appended. *)
Lemma paginate_loop_serves (Inv : World -> Prop) (url : string) (coll : list pyval) :
  serves_pages Inv url coll ->
  forall (fuel : nat) (page : Z) (acc : list pyval) (w : World),
  Inv w -> 1 <= page ->
  (length (drop (100 * (Z.to_nat page - 1)) coll) < 100 * fuel)%nat ->
  exists w',
    paginate_loop fuel url page acc w =
    (Ok (acc ++ drop (100 * (Z.to_nat page - 1)) coll), w',
     page_requests url page (S (length (drop (100 * (Z.to_nat page - 1)) coll) / 100))) /\
    Inv w'.
Proof.
  intros Hserves fuel. induction fuel as [| fuel IH]; intros page acc w Hw Hpage Hlen; [lia |].
  destruct (Hserves w page Hw Hpage) as (r & w' & body & Hreq & Hstatus & Hjson & Hwraps & Hw').
  rewrite (paginate_loop_step _ _ _ _ _ _ _ _ _ Hreq Hstatus Hjson Hwraps).
  unfold page_of. set (rest := drop (100 * (Z.to_nat page - 1)) coll) in *.
  rewrite length_take. destruct (Nat.ltb_spec (100 `min` length rest) 100) as [Hshort | Hfull].
  - exists w'. split; [| exact Hw'].
    rewrite take_ge by lia. rewrite Nat.div_small by lia. cbn.
    now rewrite Z.add_0_r.
  - assert (Hrest : drop (100 * (Z.to_nat (page + 1) - 1)) coll = drop 100 rest).
    { unfold rest. rewrite drop_drop. f_equal. lia. }
    destruct (IH (page + 1) (acc ++ take 100 rest) w' Hw') as (w2 & Hloop & Hw2);
      [lia | rewrite Hrest, length_drop; lia |].
    rewrite Hloop. exists w2. split; [| exact Hw2].
    rewrite Hrest, <- app_assoc, take_drop, length_drop.
    replace (length rest / 100)%nat with (S ((length rest - 100) / 100)).
    + now rewrite (page_requests_cons url page).
    + replace (length rest) with ((length rest - 100) + 1 * 100)%nat at 2 by lia.
      rewrite Nat.div_add by lia. lia.
Qed.

Lemma bind_more_fuel {A B} (m : M World A) (k k' : A -> M World B) :
  (forall a w1 o w2 t, k a w1 = (o, w2, t) -> o <> OutOfFuel -> k' a w1 = (o, w2, t)) ->
  forall w o w2 t, bind m k w = (o, w2, t) -> o <> OutOfFuel -> bind m k' w = (o, w2, t).
Proof.
  intros Hk w o w2 t. unfold bind.
  destruct (m w) as [[[a | e |] w1] t1]; [| auto ..].
  destruct (k a w1) as [[o1 w3] t2] eqn:Hka. intros [= <- <- <-] Hne.
  now rewrite (Hk _ _ _ _ _ Hka Hne).
Qed.

(** Fuel only bounds the number of pages: an outcome other than
    [OutOfFuel] stays the same with more fuel. *)
Lemma paginate_loop_more_fuel (url : string) (fuel : nat) :
  forall (page : Z) (items : list pyval) (w : World) (o : outcome (list pyval))
         (w' : World) (t : list event),
  paginate_loop fuel url page items w = (o, w', t) ->
  o <> OutOfFuel ->
  paginate_loop (S fuel) url page items w = (o, w', t).
Proof.
  induction fuel as [| fuel IH]; intros page items w o w' t.
  - intros [= <- _ _] Hne. now contradict Hne.
  - rewrite (paginate_loop_S (S fuel)), (paginate_loop_S fuel).
    revert w o w' t. apply bind_more_fuel. intros resp.
    apply bind_more_fuel. intros result. apply bind_more_fuel. intros entities.
    destruct (negb (Py.truthy entities)); [auto |].
    apply bind_more_fuel. intros more. apply bind_more_fuel. intros n.
    destruct (n <? 100); [auto | apply IH].
Qed.

(** C3. A collection of exactly 250 items served in pages of 100 is read
    with exactly three page requests, for the pages 1, 2 and 3, which hold
    100, 100 and 50 items; [paginate] returns the 250 items as served, in
    order, none twice and none missing.  And whatever the collection, a page
    of fewer than 100 items, empty or not, ends the loop: its items are
    appended and no further page is requested. *)
Theorem paginate_three_pages_and_short_page_last :
  (forall (Inv : World -> Prop) (url : string) (coll : list pyval) (fuel : nat) (w : World),
     serves_pages Inv url coll ->
     length coll = 250%nat ->
     Inv w ->
     (3 <= fuel)%nat ->
     length (page_of coll 1) = 100%nat /\
     length (page_of coll 2) = 100%nat /\
     length (page_of coll 3) = 50%nat /\
     page_of coll 1 ++ page_of coll 2 ++ page_of coll 3 = coll /\
     exists w',
       paginate fuel url w =
       (Ok coll, w',
        [EGet url (page_params 1); EGet url (page_params 2); EGet url (page_params 3)])) /\
  (forall (fuel : nat) (url : string) (page : Z) (acc items : list pyval) (w w' : World)
          (r : response) (body : pyval),
     requests_get url (page_params page) w = (Replied r, w') ->
     status_code r = 200 ->
     json r = Some body ->
     wraps body items ->
     (length items < 100)%nat ->
     paginate_loop (S fuel) url page acc w =
     (Ok (acc ++ items), w', [EGet url (page_params page)])).
Proof.
  split.
  - intros Inv url coll fuel w Hserves Hlen Hw Hfuel.
    unfold page_of. cbn [Z.to_nat Pos.to_nat Pos.iter_op Init.Nat.add Nat.sub Nat.mul].
    rewrite !length_take, !length_drop, Hlen.
    repeat split; try reflexivity.
    + rewrite drop_0, (take_ge (drop 200 coll)) by (rewrite length_drop; lia).
      replace (drop 200 coll) with (drop 100 (drop 100 coll)) by now rewrite drop_drop.
      now rewrite !take_drop.
    + destruct (paginate_loop_serves Inv url coll Hserves fuel 1 [] w Hw) as (w' & Hloop & _);
        [lia | |].
      * change (100 * (Z.to_nat 1 - 1))%nat with 0%nat. rewrite drop_0, Hlen. lia.
      * exists w'. unfold paginate. rewrite Hloop.
        change (100 * (Z.to_nat 1 - 1))%nat with 0%nat. rewrite drop_0, Hlen. reflexivity.
  - intros fuel url page acc items w w' r body Hreq Hstatus Hjson Hwraps Hshort.
    rewrite (paginate_loop_step _ _ _ _ _ _ _ _ _ Hreq Hstatus Hjson Hwraps).
    apply Nat.ltb_lt in Hshort. now rewrite Hshort.
Qed.

(** *** What a computation emits *)

Lemma emits_only_ret {A} (P : event -> Prop) (a : A) : emits_only P (@ret World A a).
Proof. intros w o w' t [= <- <- <-]. constructor. Qed.

Lemma emits_only_raise {A} (P : event -> Prop) (e : exn) : emits_only P (@raise World A e).
Proof. intros w o w' t [= <- <- <-]. constructor. Qed.

Lemma emits_only_out_of_fuel {A} (P : event -> Prop) : emits_only P (@out_of_fuel World A).
Proof. intros w o w' t [= <- <- <-]. constructor. Qed.

Lemma emits_only_lift {A} (P : event -> Prop) (r : exn + A) : emits_only P (@lift World A r).
Proof. destruct r; [apply emits_only_raise | apply emits_only_ret]. Qed.

Lemma emits_only_emit (P : event -> Prop) (e : event) : P e -> emits_only P (@emit World e).
Proof. intros He w o w' t [= <- <- <-]. now repeat constructor. Qed.

Lemma emits_only_bind {A B} (P : event -> Prop) (m : M World A) (k : A -> M World B) :
  emits_only P m -> (forall a, emits_only P (k a)) -> emits_only P (bind m k).
Proof.
  intros Hm Hk w o w' t. unfold bind.
  destruct (m w) as [[[a | e |] w1] t1] eqn:Hmw.
  - destruct (k a w1) as [[o2 w2] t2] eqn:Hka. intros [= <- <- <-].
    apply Forall_app. split; [eapply Hm | eapply Hk]; eauto.
  - intros [= <- <- <-]. eapply Hm; eauto.
  - intros [= <- <- <-]. eapply Hm; eauto.
Qed.

Lemma emits_only_try_except {A} (P : event -> Prop) (m : M World A) (h : exn -> M World A) :
  emits_only P m -> (forall e, emits_only P (h e)) -> emits_only P (try_except m h).
Proof.
  intros Hm Hh w o w' t. unfold try_except.
  destruct (m w) as [[[a | e |] w1] t1] eqn:Hmw.
  - intros [= <- <- <-]. eapply Hm; eauto.
  - destruct (h e w1) as [[o2 w2] t2] eqn:Hhe. intros [= <- <- <-].
    apply Forall_app. split; [eapply Hm | eapply Hh]; eauto.
  - intros [= <- <- <-]. eapply Hm; eauto.
Qed.

Lemma emits_only_weaken {A} (P Q : event -> Prop) (m : M World A) :
  (forall e, P e -> Q e) -> emits_only P m -> emits_only Q m.
Proof. intros HPQ Hm w o w' t Hrun. eapply Forall_impl; [eapply Hm |]; eauto. Qed.

Lemma emits_only_api_get (P : event -> Prop) (url : string) (params : query) :
  P (EGet url params) -> emits_only P (api_get url params).
Proof.
  intros HP. unfold api_get. apply emits_only_bind.
  - intros w o w' t. unfold http_get.
    destruct (requests_get url params w) as [[| r] w1]; intros [= <- <- <-];
      now repeat constructor.
  - intros r. destruct (negb (status_code r =? 200)); [apply emits_only_raise |].
    unfold response_json. destruct (json r); [apply emits_only_ret | apply emits_only_raise].
Qed.

Lemma emits_only_api_post (P : event -> Prop) (url : string) (payload : pyval) :
  P (EPost url payload) -> emits_only P (api_post url payload).
Proof.
  intros HP. unfold api_post. apply emits_only_bind.
  - intros w o w' t. unfold http_post.
    destruct (requests_post url payload w) as [[| r] w1]; intros [= <- <- <-];
      now repeat constructor.
  - intros r. destruct (negb _); [apply emits_only_raise |].
    unfold response_json. destruct (json r); [apply emits_only_ret | apply emits_only_raise].
Qed.

(** [paginate] emits page requests for its own endpoint and nothing else. *)
Lemma emits_only_paginate_loop (url : string) (fuel : nat) :
  forall (page : Z) (items : list pyval),
  emits_only (fun e => exists q, e = EGet url q) (paginate_loop fuel url page items).
Proof.
  induction fuel as [| fuel IH]; intros page items; [apply emits_only_out_of_fuel |].
  rewrite paginate_loop_S.
  apply emits_only_bind; [apply emits_only_api_get; eauto | intros resp].
  apply emits_only_bind; [apply emits_only_lift | intros result].
  apply emits_only_bind; [apply emits_only_lift | intros entities].
  destruct (negb (Py.truthy entities)); [apply emits_only_ret |].
  apply emits_only_bind; [apply emits_only_lift | intros more].
  apply emits_only_bind; [apply emits_only_lift | intros n].
  destruct (n <? 100); [apply emits_only_ret | apply IH].
Qed.

(** *** Building the mapping *)

Lemma build_mapping_unfold (fuel : nat) (project : string) (w w1 : World)
    (cases : list pyval) (t1 : list event) :
  get_all_cases fuel project w = (Ok cases, w1, t1) ->
  build_mapping fuel project w =
  match build_mapping_loop cases ∅ with
  | inr mapping => (Ok mapping, w1, t1 ++ [ELog INFO (LogLoadedCases (length cases) project)])
  | inl e => (Raised e, w1, t1 ++ [ELog INFO (LogLoadedCases (length cases) project)])
  end.
Proof.
  intros Hcases. unfold build_mapping. rewrite (bind_ok _ _ _ _ _ _ Hcases).
  unfold logging_info. rewrite bind_emit.
  now destruct (build_mapping_loop cases ∅).
Qed.

(** C5. When several cases of the fetched list carry the same mapping
    value [v], the table [build_mapping] returns maps [v] to the id of the
    last of them in the fetched order: whatever comes before the case [c],
    if no case after [c] carries [v], then [v] is mapped to the id of [c]. *)
Theorem build_mapping_last_write_wins (fuel : nat) (project : string) (w w1 w' : World)
    (t1 tr : list event) (cases pre post : list pyval) (c id : pyval) (v : string)
    (mapping : gmap string pyval) :
  get_all_cases fuel project w = (Ok cases, w1, t1) ->
  build_mapping fuel project w = (Ok mapping, w', tr) ->
  cases = pre ++ c :: post ->
  carried_value c = inr (Some v) ->
  Py.getitem c "id" = inr id ->
  (forall c', In c' post -> carried_value c' <> inr (Some v)) ->
  mapping !! v = Some id.
Proof.
  intros Hcases Hbuild -> Hc Hid Hpost.
  rewrite (build_mapping_unfold _ _ _ _ _ _ Hcases) in Hbuild.
  destruct (build_mapping_loop (pre ++ c :: post) ∅) as [e | m] eqn:Hloop; [discriminate |].
  injection Hbuild as <- _ _.
  eapply build_mapping_loop_last; eauto.
Qed.

(** A case that carries no value leaves the table as it is. *)
Lemma build_mapping_step_excluded (mapping : gmap string pyval) (case : pyval) :
  carried_value case = inr None -> build_mapping_step mapping case = inr mapping.
Proof. intros Hc. now rewrite build_mapping_step_carried, Hc. Qed.

(** *** The loop over the results *)

Lemma filter_run_filter (run_b : Z) (all_results : list pyval) :
  forall results_b,
  filter_run all_results run_b = inr results_b ->
  results_b = List.filter (in_run run_b) all_results.
Proof.
  induction all_results as [| r rest IH]; simpl; intros results_b Hf.
  - now injection Hf as <-.
  - unfold in_run. destruct (Py.get r "run_id" PNone) as [e | run_id]; simpl in Hf;
      [discriminate |].
    destruct (filter_run rest run_b) as [e | kept]; simpl in Hf; [discriminate |].
    injection Hf as <-. rewrite (IH kept eq_refl).
    now destruct (Py.eq_int run_id run_b).
Qed.

(** [get_case] sends one GET, whatever comes of it. *)
Lemma get_case_events (project : string) (case_id : pyval) (w w' : World)
    (o : outcome pyval) (t : list event) :
  get_case project case_id w = (o, w', t) ->
  t = [EGet (QASE_API_BASE +:+ "/case/" +:+ project +:+ "/" +:+ Py.str case_id) None].
Proof.
  unfold get_case, api_get, http_get, response_json, bind.
  destruct (requests_get _ None w) as [[| r] w1]; [now intros [= _ _ <-] |].
  destruct (negb (status_code r =? 200)); [now intros [= _ _ <-] |].
  destruct (json r) as [body |]; [| now intros [= _ _ <-]].
  cbn. destruct (lift (Py.get body "result" PNone) w1) as [[o2 w2] t2] eqn:Hl.
  assert (t2 = []) as -> by (destruct (Py.get body "result" PNone); now injection Hl).
  now intros [= _ _ <-].
Qed.

Lemma copy_one_unfold (project_a : string) (run_a : Z) (project_b : string) (run_b : Z)
    (mapping_a : gmap string pyval) (summary : Summary) (res : pyval) (w : World) :
  copy_one project_a run_a project_b run_b mapping_a summary res w =
  (do case_id_b <- lift (Py.get res "case_id" PNone) ;;
   do status_raw <- lift (Py.get res "status" PNone) ;;
   do case_b <- get_case project_b case_id_b ;;
   if negb (Py.truthy case_b) then ret (add_errors summary)
   else
     do carried <- lift (carried_value case_b) ;;
     after_case project_a run_a project_b run_b mapping_a summary case_id_b status_raw
                carried) w.
Proof.
  unfold copy_one.
  apply bind_ext; intros case_id_b w1. apply bind_ext; intros status_raw w2.
  apply bind_ext; intros case_b w3.
  destruct (negb (Py.truthy case_b)); [reflexivity |].
  unfold carried_value.
  destruct (Py.get case_b "custom_fields" (PList [])) as [e | cf_list]; cbn [ebind];
    [now rewrite !bind_lift_inl |].
  rewrite bind_lift_inr. cbv beta.
  destruct (extract_custom_field_value cf_list MAPPING_FIELD_ID) as [e | mapping_value];
    cbn [ebind]; [now rewrite !bind_lift_inl |].
  now rewrite !bind_lift_inr.
Qed.

Lemma api_post_run (url : string) (payload : pyval) (w w' : World) (hr : http_result) :
  requests_post url payload w = (hr, w') ->
  exists o,
    api_post url payload w = (o, w', [EPost url payload]) /\
    match post_failure url hr with
    | Some e => o = Raised e
    | None => exists body, o = Ok body
    end.
Proof.
  intros Hreq. unfold api_post, http_post, response_json, post_failure, bind.
  rewrite Hreq. destruct hr as [| r]; [eauto |].
  destruct (negb _); [eauto |].
  destruct (json r) as [body |]; eauto.
Qed.

(** The loop body on a result that resolves to [mv]: everything up to the
    lookup in the mapping of project A. *)
Lemma copy_one_resolved (project_a : string) (run_a : Z) (project_b : string) (run_b : Z)
    (mapping_a : gmap string pyval) (summary : Summary) (res status_raw : pyval)
    (mv : string) (w w1 : World) (t1 : list event) :
  resolves project_b res w status_raw mv w1 t1 ->
  exists case_id_b,
    copy_one project_a run_a project_b run_b mapping_a summary res w =
    (let '(o, w2, t2) :=
       after_case project_a run_a project_b run_b mapping_a summary case_id_b status_raw
                  (Some mv) w1 in
     (o, w2, t1 ++ t2)).
Proof.
  intros (case_id_b & case_b & Hid & Hstatus & Hcase & Htruthy & Hcarried).
  exists case_id_b. rewrite copy_one_unfold, Hid, Hstatus.
  rewrite !bind_lift_inr, (bind_ok _ _ _ _ _ _ Hcase), Htruthy. cbn [negb].
  now rewrite Hcarried, bind_lift_inr.
Qed.

(** A resolved result whose value has no truthy entry in the mapping of
    project A is skipped, and nothing is sent. *)
Lemma copy_one_no_target (project_a : string) (run_a : Z) (project_b : string) (run_b : Z)
    (mapping_a : gmap string pyval) (summary : Summary) (res status_raw : pyval)
    (mv : string) (w w1 : World) (t1 : list event) :
  resolves project_b res w status_raw mv w1 t1 ->
  Py.truthy (default PNone (mapping_a !! mv)) = false ->
  copy_one project_a run_a project_b run_b mapping_a summary res w =
  (Ok (add_skipped summary), w1, t1 ++ [ELog INFO (LogNoMappingFor mv)]).
Proof.
  intros Hres Hfalsy.
  destruct (copy_one_resolved project_a run_a _ run_b mapping_a summary _ _ _ _ _ _ Hres)
    as (case_id_b & ->).
  unfold after_case. now rewrite Hfalsy.
Qed.

(** A resolved result with a truthy target is written once; the outcome of
    the write decides between [copied] and [errors]. *)
Lemma copy_one_write (project_a : string) (run_a : Z) (project_b : string) (run_b : Z)
    (mapping_a : gmap string pyval) (summary : Summary) (res status_raw target : pyval)
    (mv : string) (w w1 w2 : World) (t1 : list event) (hr : http_result) :
  resolves project_b res w status_raw mv w1 t1 ->
  mapping_a !! mv = Some target ->
  Py.truthy target = true ->
  requests_post (result_url project_a run_a)
                (make_payload target status_raw project_b run_b) w1 = (hr, w2) ->
  copy_one project_a run_a project_b run_b mapping_a summary res w =
  match post_failure (result_url project_a run_a) hr with
  | Some e =>
      (Ok (add_errors summary), w2,
       t1 ++ [EPost (result_url project_a run_a)
                    (make_payload target status_raw project_b run_b);
              ELog ERROR (LogPostError e)])
  | None =>
      (Ok (add_copied summary), w2,
       t1 ++ [EPost (result_url project_a run_a)
                    (make_payload target status_raw project_b run_b);
              ELog INFO (LogCopied mv target)])
  end.
Proof.
  intros Hres Hlookup Htruthy Hpost.
  destruct (copy_one_resolved project_a run_a _ run_b mapping_a summary _ _ _ _ _ _ Hres)
    as (case_id_b & ->).
  unfold after_case. rewrite Hlookup. cbn [default from_option id]. rewrite Htruthy.
  cbn [negb]. destruct (api_post_run _ _ _ _ _ Hpost) as (o & Hrun & Ho).
  unfold try_except, post_result. fold (result_url project_a run_a).
  destruct (post_failure (result_url project_a run_a) hr) as [e |].
  - subst o. now rewrite (bind_raised _ _ _ _ _ _ Hrun).
  - destruct Ho as (body & ->). now rewrite (bind_ok _ _ _ _ _ _ Hrun).
Qed.

Lemma after_case_counts (project_a : string) (run_a : Z) (project_b : string) (run_b : Z)
    (mapping_a : gmap string pyval) (summary summary' : Summary)
    (case_id_b status_raw : pyval) (carried : option string) (w w' : World)
    (t : list event) :
  after_case project_a run_a project_b run_b mapping_a summary case_id_b status_raw carried w
  = (Ok summary', w', t) ->
  summary' = add_copied summary \/ summary' = add_skipped summary \/
  summary' = add_errors summary.
Proof.
  unfold after_case. destruct carried as [mv |].
  - cbv zeta. destruct (negb _).
    + intros [= <- _ _]. auto.
    + intros Htry. apply try_except_inv_ok in Htry as [Hok | (e & w1 & t1 & t2 & _ & Hh & _)].
      * apply bind_inv_ok in Hok as (a & w1 & t1 & t2 & _ & Hk & _).
        injection Hk as <- _ _. auto.
      * injection Hh as <- _ _. auto.
  - intros [= <- _ _]. auto.
Qed.

(** Each result adds one to exactly one of the three counters. *)
Lemma copy_one_counts (project_a : string) (run_a : Z) (project_b : string) (run_b : Z)
    (mapping_a : gmap string pyval) (summary summary' : Summary) (res : pyval)
    (w w' : World) (t : list event) :
  copy_one project_a run_a project_b run_b mapping_a summary res w = (Ok summary', w', t) ->
  summary' = add_copied summary \/ summary' = add_skipped summary \/
  summary' = add_errors summary.
Proof.
  rewrite copy_one_unfold. intros Hrun.
  apply bind_inv_ok in Hrun as (case_id_b & w1 & t1 & t2 & _ & Hrun & _).
  apply bind_inv_ok in Hrun as (status_raw & w2 & t3 & t4 & _ & Hrun & _).
  apply bind_inv_ok in Hrun as (case_b & w3 & t5 & t6 & _ & Hrun & _).
  destruct (negb (Py.truthy case_b)).
  - injection Hrun as <- _ _. auto.
  - apply bind_inv_ok in Hrun as (carried & w4 & t7 & t8 & _ & Hrun & _).
    eapply after_case_counts; eauto.
Qed.

Lemma copy_loop_total (project_a : string) (run_a : Z) (project_b : string) (run_b : Z)
    (mapping_a : gmap string pyval) (results_b : list pyval) :
  forall (summary summary' : Summary) (w w' : World) (t : list event),
  copy_loop project_a run_a project_b run_b mapping_a results_b summary w
  = (Ok summary', w', t) ->
  total summary' = total summary + Z.of_nat (length results_b).
Proof.
  induction results_b as [| res rest IH]; intros summary summary' w w' t Hrun.
  - injection Hrun as <- _ _. cbn. lia.
  - cbn [copy_loop] in Hrun.
    apply bind_inv_ok in Hrun as (s1 & w1 & t1 & t2 & Hone & Hrest & _).
    rewrite (IH _ _ _ _ _ Hrest).
    apply copy_one_counts in Hone as [-> | [-> | ->]]; unfold total; cbn; lia.
Qed.

(** C2. A run of [copy_results] that gets past the test of the mapping
    (the mapping of project A is not empty) and ends without an exception
    ends by dumping a summary, and in it copied + skipped + errors is the
    number of results fetched for project B whose run id equals [run_b]. *)
Theorem copy_results_summary_total (fuel : nat) (project_a : string) (run_a : Z)
    (project_b : string) (run_b : Z) (w w1 w' : World) (mapping_a : gmap string pyval)
    (t1 tr : list event) :
  build_mapping fuel project_a w = (Ok mapping_a, w1, t1) ->
  mapping_a <> ∅ ->
  copy_results fuel project_a run_a project_b run_b w = (Ok tt, w', tr) ->
  exists (all_results : list pyval) (w2 : World) (t2 before : list event) (summary : Summary),
    get_all_results fuel project_b w1 = (Ok all_results, w2, t2) /\
    tr = before ++ [EDumpSummary "summary.json" summary;
                    ELog INFO LogDone;
                    ELog INFO (LogSummary summary)] /\
    copied summary + skipped summary + errors summary =
    Z.of_nat (length (List.filter (in_run run_b) all_results)).
Proof.
  intros Hbuild Hne Hrun. unfold copy_results, logging_info in Hrun.
  rewrite bind_emit, (bind_ok _ _ _ _ _ _ Hbuild), bind_emit in Hrun.
  destruct (Nat.eqb_spec (size mapping_a) 0) as [Hsize | _];
    [now apply map_size_empty_iff in Hsize |].
  destruct (copy_from fuel project_a run_a project_b run_b mapping_a w1)
    as [[o w3] t3] eqn:Hfrom.
  injection Hrun as -> -> <-.
  unfold copy_from, logging_info in Hfrom. rewrite bind_emit in Hfrom.
  destruct (bind (get_all_results fuel project_b) _ w1) as [[o w4] t4] eqn:Hrest.
  injection Hfrom as -> -> <-.
  apply bind_inv_ok in Hrest as (all_results & w2 & t2 & t5 & Hall & Hrest & ->).
  rewrite bind_emit in Hrest.
  destruct (bind (lift (filter_run all_results run_b)) _ w2) as [[o w5] t6] eqn:Hfilter.
  injection Hrest as -> -> <-.
  apply bind_inv_ok in Hfilter as (results_b & w6 & t7 & t8 & Hf & Hrest & ->).
  apply lift_inv_ok in Hf as (Hf & -> & ->).
  rewrite bind_emit in Hrest.
  destruct (bind (copy_loop _ _ _ _ _ _ _) _ w2) as [[o w7] t9] eqn:Hloop.
  injection Hrest as -> -> <-.
  apply bind_inv_ok in Hloop as (summary & w8 & t10 & t11 & Hloop & Hdump & ->).
  injection Hdump as _ <-.
  exists all_results, w2, t2,
    (ELog INFO LogBuildingMapping :: t1 ++ ELog INFO (LogMappingKeys (size mapping_a)) ::
     ELog INFO LogFetchingResults :: t2 ++ ELog INFO (LogFetched (length all_results) project_b) ::
     ELog INFO (LogFiltered (length results_b) run_b) :: t10), summary.
  split; [exact Hall |]. split.
  - cbn. f_equal. rewrite <- !app_assoc. cbn. do 3 f_equal.
    rewrite <- !app_assoc. reflexivity.
  - apply copy_loop_total in Hloop. unfold total in Hloop. cbn in Hloop.
    rewrite <- (filter_run_filter _ _ _ Hf). lia.
Qed.

(** C7, as the script has it.  When the mapping built for project A is
    empty, [copy_results] logs the error and returns at once: after the
    events of the mapping build it emits two log records and nothing more.
    It fetches no results and writes nothing, and it dumps no summary at
    all, zeroed or otherwise. *)
Theorem copy_results_empty_mapping (fuel : nat) (project_a : string) (run_a : Z)
    (project_b : string) (run_b : Z) (w w1 : World) (mapping_a : gmap string pyval)
    (t1 : list event) :
  build_mapping fuel project_a w = (Ok mapping_a, w1, t1) ->
  mapping_a = ∅ ->
  copy_results fuel project_a run_a project_b run_b w =
  (Ok tt, w1,
   ELog INFO LogBuildingMapping :: t1 ++
   [ELog INFO (LogMappingKeys 0); ELog ERROR LogNoMappingIdInA]) /\
  Forall (fun e => is_post e = false /\ is_dump e = false /\
                   forall q, e <> EGet (QASE_API_BASE +:+ "/result/" +:+ project_b) q)
         (ELog INFO LogBuildingMapping :: t1 ++
          [ELog INFO (LogMappingKeys 0); ELog ERROR LogNoMappingIdInA]).
Proof.
  intros Hbuild ->. split.
  - unfold copy_results, logging_info, logging_error.
    now rewrite bind_emit, (bind_ok _ _ _ _ _ _ Hbuild), bind_emit.
  - constructor; [now repeat split |]. apply Forall_app. split.
    + assert (Hshape : emits_only
                (fun e => is_post e = false /\ is_dump e = false /\
                          forall q, e <> EGet (QASE_API_BASE +:+ "/result/" +:+ project_b) q)
                (build_mapping fuel project_a)).
      { unfold build_mapping, get_all_cases, paginate.
        apply emits_only_bind.
        - eapply emits_only_weaken; [| apply emits_only_paginate_loop].
          intros e (q & ->). repeat split. intros q' Heq.
          apply (f_equal (fun ev => match ev with EGet u _ => u | _ => EmptyString end)) in Heq.
          unfold QASE_API_BASE in Heq. cbn in Heq. discriminate Heq.
        - intros cases. apply emits_only_bind; [| intros _; apply emits_only_lift].
          apply emits_only_emit. now repeat split. }
      exact (Hshape _ _ _ _ Hbuild).
    + repeat constructor; discriminate.
Qed.

(** C8. A result that resolves to a value with a truthy target in the
    mapping of project A is written with one POST to the result endpoint of
    project A and run A.  The payload holds the target case id, the
    stringified status in lower case, and a comment naming project B and
    run B; the status sent is a string, never what [convert_status] makes
    of the status.  Nothing else is posted for this result. *)
Theorem copy_one_payload (project_a : string) (run_a : Z) (project_b : string) (run_b : Z)
    (mapping_a : gmap string pyval) (summary : Summary) (res status_raw target : pyval)
    (mv : string) (w w1 : World) (t1 : list event) :
  resolves project_b res w status_raw mv w1 t1 ->
  mapping_a !! mv = Some target ->
  Py.truthy target = true ->
  exists (o : outcome Summary) (w2 : World) (record : log_record) (lvl : log_level),
    copy_one project_a run_a project_b run_b mapping_a summary res w =
    (o, w2,
     t1 ++ [EPost (QASE_API_BASE +:+ "/result/" +:+ project_a +:+ "/" +:+ Py.str_of_int run_a)
                  (PDict [("case_id", target);
                          ("status", PStr (Py.lower (Py.str status_raw)));
                          ("comment", PStr ("Copied from " +:+ project_b +:+ " run "
                                            +:+ Py.str_of_int run_b))]);
            ELog lvl record]) /\
    Forall (fun e => is_post e = false) t1 /\
    PStr (Py.lower (Py.str status_raw)) <> convert_status status_raw.
Proof.
  intros Hres Hlookup Htruthy.
  destruct (requests_post (result_url project_a run_a)
              (make_payload target status_raw project_b run_b) w1) as [hr w2] eqn:Hpost.
  pose proof (copy_one_write project_a run_a project_b run_b mapping_a summary
                _ _ _ _ _ _ _ _ _ Hres Hlookup Htruthy Hpost) as Hone.
  assert (Hquiet : Forall (fun e => is_post e = false) t1).
  { destruct Hres as (case_id_b & case_b & _ & _ & Hcase & _).
    rewrite (get_case_events _ _ _ _ _ _ Hcase). now repeat constructor. }
  assert (Hstr : PStr (Py.lower (Py.str status_raw)) <> convert_status status_raw).
  { unfold convert_status. destruct status_raw; cbn; discriminate. }
  destruct (post_failure (result_url project_a run_a) hr) as [e |].
  - exists (Ok (add_errors summary)), w2, (LogPostError e), ERROR. now rewrite Hone.
  - exists (Ok (add_copied summary)), w2, (LogCopied mv target), INFO. now rewrite Hone.
Qed.

(** C9. When the write of an eligible result fails (no response, or a
    status other than 200 and 201), the POST is sent once and not again,
    [errors] grows by one and nothing else changes in the summary, and the
    loop goes on with the results that follow; if the next one is eligible
    and its write succeeds, it is counted in [copied]. *)
Theorem copy_one_write_failure (project_a : string) (run_a : Z) (project_b : string)
    (run_b : Z) (mapping_a : gmap string pyval) (summary : Summary)
    (res status_raw target : pyval) (mv : string) (w w1 w2 : World) (t1 : list event)
    (hr : http_result) :
  resolves project_b res w status_raw mv w1 t1 ->
  mapping_a !! mv = Some target ->
  Py.truthy target = true ->
  requests_post (result_url project_a run_a)
                (make_payload target status_raw project_b run_b) w1 = (hr, w2) ->
  hr = ConnectionFailed \/
  (exists r, hr = Replied r /\ status_code r <> 200 /\ status_code r <> 201) ->
  exists (e : exn) (t : list event),
    t = t1 ++ [EPost (result_url project_a run_a)
                     (make_payload target status_raw project_b run_b);
               ELog ERROR (LogPostError e)] /\
    Forall (fun ev => is_post ev = false) t1 /\
    copy_one project_a run_a project_b run_b mapping_a summary res w =
    (Ok (add_errors summary), w2, t) /\
    (forall rest,
       copy_loop project_a run_a project_b run_b mapping_a (res :: rest) summary w =
       (let '(o, w3, t3) :=
          copy_loop project_a run_a project_b run_b mapping_a rest (add_errors summary) w2 in
        (o, w3, t ++ t3))) /\
    (forall (res' status_raw' target' : pyval) (mv' : string) (w3 w4 : World)
            (t3 : list event) (r' : response) (body : pyval),
       resolves project_b res' w2 status_raw' mv' w3 t3 ->
       mapping_a !! mv' = Some target' ->
       Py.truthy target' = true ->
       requests_post (result_url project_a run_a)
                     (make_payload target' status_raw' project_b run_b) w3
       = (Replied r', w4) ->
       status_code r' = 200 \/ status_code r' = 201 ->
       json r' = Some body ->
       copy_loop project_a run_a project_b run_b mapping_a [res; res'] summary w =
       (Ok (add_copied (add_errors summary)), w4,
        t ++ t3 ++ [EPost (result_url project_a run_a)
                          (make_payload target' status_raw' project_b run_b);
                    ELog INFO (LogCopied mv' target')])).
Proof.
  intros Hres Hlookup Htruthy Hpost Hfail.
  pose proof (copy_one_write project_a run_a project_b run_b mapping_a summary
                _ _ _ _ _ _ _ _ _ Hres Hlookup Htruthy Hpost) as Hone.
  assert (Hsome : exists e, post_failure (result_url project_a run_a) hr = Some e).
  { destruct Hfail as [-> | (r & -> & H200 & H201)]; cbn; [eauto |].
    apply Z.eqb_neq in H200, H201. rewrite H200, H201. cbn. eauto. }
  destruct Hsome as (e & He). rewrite He in Hone.
  exists e. eexists. split; [reflexivity |]. split; [| split; [exact Hone | split]].
  - destruct Hres as (case_id_b & case_b & _ & _ & Hcase & _).
    rewrite (get_case_events _ _ _ _ _ _ Hcase). now repeat constructor.
  - intros rest. cbn [copy_loop]. now rewrite (bind_ok _ _ _ _ _ _ Hone).
  - intros res' status_raw' target' mv' w3 w4 t3 r' body Hres' Hlookup' Htruthy' Hpost'
           Hstatus' Hjson'.
    pose proof (copy_one_write project_a run_a project_b run_b mapping_a (add_errors summary)
                  _ _ _ _ _ _ _ _ _ Hres' Hlookup' Htruthy' Hpost') as Hnext.
    assert (Hnone : post_failure (result_url project_a run_a) (Replied r') = None).
    { cbn. rewrite Hjson'. destruct Hstatus' as [-> | ->]; reflexivity. }
    rewrite Hnone in Hnext.
    cbn [copy_loop]. rewrite (bind_ok _ _ _ _ _ _ Hone), (bind_ok _ _ _ _ _ _ Hnext).
    cbn. now rewrite app_nil_r.
Qed.

(** C10. A result whose mapping value is a key of the mapping of project A
    with the id 0 under it is skipped: the lookup result is tested for
    truth, 0 is falsy, so the entry counts for as much as no entry.  The
    only request for this result is the fetch of its case; nothing is
    posted. *)
Theorem copy_one_target_zero (project_a : string) (run_a : Z) (project_b : string)
    (run_b : Z) (mapping_a : gmap string pyval) (summary : Summary) (res status_raw : pyval)
    (mv : string) (w w1 : World) (t1 : list event) :
  resolves project_b res w status_raw mv w1 t1 ->
  mapping_a !! mv = Some (PInt 0) ->
  copy_one project_a run_a project_b run_b mapping_a summary res w =
  (Ok (add_skipped summary), w1, t1 ++ [ELog INFO (LogNoMappingFor mv)]) /\
  Forall (fun e => is_post e = false) (t1 ++ [ELog INFO (LogNoMappingFor mv)]) /\
  copy_one project_a run_a project_b run_b (delete mv mapping_a) summary res w =
  copy_one project_a run_a project_b run_b mapping_a summary res w.
Proof.
  intros Hres Hlookup.
  assert (Hone : copy_one project_a run_a project_b run_b mapping_a summary res w =
                 (Ok (add_skipped summary), w1, t1 ++ [ELog INFO (LogNoMappingFor mv)])).
  { apply copy_one_no_target with (status_raw := status_raw); [exact Hres |].
    now rewrite Hlookup. }
  split; [exact Hone |]. split.
  - destruct Hres as (case_id_b & case_b & _ & _ & Hcase & _).
    rewrite (get_case_events _ _ _ _ _ _ Hcase). now repeat constructor.
  - rewrite Hone. apply copy_one_no_target with (status_raw := status_raw); [exact Hres |].
    now rewrite lookup_delete_eq.
Qed.

(** A case that comes back falsy (a [null] result, say) is counted in
    [errors] and the loop goes on. *)
Lemma copy_one_case_missing (project_a : string) (run_a : Z) (project_b : string)
    (run_b : Z) (mapping_a : gmap string pyval) (summary : Summary)
    (res case_id_b status_raw case_b : pyval) (w w1 : World) (t1 : list event) :
  Py.get res "case_id" PNone = inr case_id_b ->
  Py.get res "status" PNone = inr status_raw ->
  get_case project_b case_id_b w = (Ok case_b, w1, t1) ->
  Py.truthy case_b = false ->
  copy_one project_a run_a project_b run_b mapping_a summary res w =
  (Ok (add_errors summary), w1, t1 ++ []).
Proof.
  intros Hid Hstatus Hcase Hfalsy.
  rewrite copy_one_unfold, Hid, Hstatus, !bind_lift_inr, (bind_ok _ _ _ _ _ _ Hcase).
  now rewrite Hfalsy.
Qed.

(** An exception out of [get_case] is caught nowhere: it ends the loop
    over the results, whatever results are left. *)
Lemma copy_loop_case_fetch_raises (project_a : string) (run_a : Z) (project_b : string)
    (run_b : Z) (mapping_a : gmap string pyval) (summary : Summary)
    (res case_id_b : pyval) (rest : list pyval) (e : exn) (w w1 : World) (t1 : list event) :
  Py.get res "case_id" PNone = inr case_id_b ->
  get_case project_b case_id_b w = (Raised e, w1, t1) ->
  copy_loop project_a run_a project_b run_b mapping_a (res :: rest) summary w =
  (Raised e, w1, t1).
Proof.
  intros Hid Hcase. cbn [copy_loop]. apply bind_raised.
  rewrite copy_one_unfold, Hid, bind_lift_inr.
  destruct res as [| | | | | d]; try discriminate. cbn [Py.get].
  rewrite bind_lift_inr. now apply bind_raised.
Qed.

End Effects.

(** ** The script on the example service *)

Lemma shop_build_mapping :
  @build_mapping unit Demo.shop 5 "A" tt =
  (Ok Demo.mapping_a, tt,
   [EGet (Demo.base_case "A") (page_params 1); ELog INFO (LogLoadedCases 5 "A")]).
Proof. vm_compute. reflexivity. Qed.

Lemma shop_copy_results :
  @copy_results unit Demo.shop 5 "A" 1 "B" 5 tt =
  (Ok tt, tt,
   [ELog INFO LogBuildingMapping;
    EGet (Demo.base_case "A") (page_params 1);
    ELog INFO (LogLoadedCases 5 "A");
    ELog INFO (LogMappingKeys 3);
    ELog INFO LogFetchingResults;
    EGet (Demo.base_result "B") (page_params 1);
    ELog INFO (LogFetched 7 "B");
    ELog INFO (LogFiltered 6 5);
    EGet "https://api.qase.io/v1/case/B/11" None;
    EPost "https://api.qase.io/v1/result/A/1"
          (PDict [("case_id", PInt 2); ("status", PStr "failed");
                  ("comment", PStr "Copied from B run 5")]);
    ELog ERROR (LogPostError (RuntimeError
      "POST https://api.qase.io/v1/result/A/1 failed: 500 Internal Server Error"));
    EGet "https://api.qase.io/v1/case/B/10" None;
    EPost "https://api.qase.io/v1/result/A/1"
          (PDict [("case_id", PInt 3); ("status", PStr "passed");
                  ("comment", PStr "Copied from B run 5")]);
    ELog INFO (LogCopied "1001" (PInt 3));
    EGet "https://api.qase.io/v1/case/B/12" None;
    ELog INFO (LogSkippingCase (PInt 12));
    EGet "https://api.qase.io/v1/case/B/13" None;
    ELog INFO (LogNoMappingFor "9999");
    EGet "https://api.qase.io/v1/case/B/14" None;
    ELog INFO (LogNoMappingFor "1000");
    EGet "https://api.qase.io/v1/case/B/15" None;
    EDumpSummary "summary.json" (mkSummary 1 3 2);
    ELog INFO LogDone;
    ELog INFO (LogSummary (mkSummary 1 3 2))]).
Proof. vm_compute. reflexivity. Qed.

Lemma convert_status_total_witness :
  Py.isinstance_int (PStr "PASSED") = false /\ convert_status (PStr "PASSED") = PInt 1.
Proof.
  split; [reflexivity |].
  destruct convert_status_total as (_ & Hother & _).
  destruct (Hother (PStr "PASSED") eq_refl) as (Hpassed & _).
  apply Hpassed. reflexivity.
Defined.

Lemma big_serves_pages :
  @serves_pages unit Demo.big (fun _ => True) (Demo.base_case "BIG") Demo.coll250.
Proof.
  intros w page _ _. eexists _, _, _.
  split; [reflexivity |]. split; [reflexivity |]. split; [reflexivity |].
  split; [| exact I].
  eexists _, _. split; [reflexivity |]. split; reflexivity.
Defined.

Lemma paginate_three_pages_witness :
  (exists w',
     @paginate unit Demo.big 3 (Demo.base_case "BIG") tt =
     (Ok Demo.coll250, w',
      [EGet (Demo.base_case "BIG") (page_params 1);
       EGet (Demo.base_case "BIG") (page_params 2);
       EGet (Demo.base_case "BIG") (page_params 3)])) /\
  @paginate_loop unit Demo.big 1 (Demo.base_case "BIG") 3 (take 200 Demo.coll250) tt =
  (Ok (take 200 Demo.coll250 ++ page_of Demo.coll250 3), tt,
   [EGet (Demo.base_case "BIG") (page_params 3)]).
Proof.
  destruct (@paginate_three_pages_and_short_page_last unit Demo.big) as [Hthree Hshort].
  split.
  - destruct (Hthree (fun _ => True) (Demo.base_case "BIG") Demo.coll250 3%nat tt)
      as (_ & _ & _ & _ & Hrun).
    + exact big_serves_pages.
    + reflexivity.
    + exact I.
    + lia.
    + exact Hrun.
  - eapply Hshort.
    + reflexivity.
    + reflexivity.
    + reflexivity.
    + eexists _, _. split; [reflexivity |]. split; reflexivity.
    + apply Nat.ltb_lt. vm_compute. reflexivity.
Defined.

Lemma shop_get_all_cases :
  @get_all_cases unit Demo.shop 5 "A" tt =
  (Ok Demo.cases_a, tt, [EGet (Demo.base_case "A") (page_params 1)]).
Proof. vm_compute. reflexivity. Qed.

Lemma build_mapping_last_write_wins_witness :
  Demo.mapping_a !! "1001" = Some (PInt 3).
Proof.
  apply (@build_mapping_last_write_wins unit Demo.shop 5 "A" tt tt tt
           [EGet (Demo.base_case "A") (page_params 1)]
           [EGet (Demo.base_case "A") (page_params 1); ELog INFO (LogLoadedCases 5 "A")]
           Demo.cases_a
           [Demo.case_with 1 (PStr "1001"); Demo.case_with 2 (PInt 1002); Demo.case_plain 4]
           [Demo.case_with 0 (PStr "1000")]
           (Demo.case_with 3 (PStr " 1001 ")) (PInt 3) "1001" Demo.mapping_a).
  - exact shop_get_all_cases.
  - exact shop_build_mapping.
  - reflexivity.
  - reflexivity.
  - reflexivity.
  - intros c' [<- | []]. vm_compute. discriminate.
Defined.

Lemma copy_results_summary_total_witness :
  exists (all_results : list pyval) (w2 : unit) (t2 before : list event) (summary : Summary),
    @get_all_results unit Demo.shop 5 "B" tt = (Ok all_results, w2, t2) /\
    (@copy_results unit Demo.shop 5 "A" 1 "B" 5 tt).2 =
    before ++ [EDumpSummary "summary.json" summary;
               ELog INFO LogDone;
               ELog INFO (LogSummary summary)] /\
    copied summary + skipped summary + errors summary =
    Z.of_nat (length (List.filter (in_run 5) all_results)).
Proof.
  assert (Hne : Demo.mapping_a <> ∅) by apply insert_non_empty.
  destruct (@copy_results_summary_total unit Demo.shop 5 "A" 1 "B" 5 tt tt tt
              Demo.mapping_a _ _ shop_build_mapping Hne shop_copy_results)
    as (all_results & w2 & t2 & before & summary & Hall & Htr & Htotal).
  exists all_results, w2, t2, before, summary.
  split; [exact Hall |]. split; [| exact Htotal].
  rewrite shop_copy_results. exact Htr.
Defined.

Lemma shop_unmapped_build_mapping :
  @build_mapping unit Demo.shop_unmapped 5 "A" tt =
  (Ok ∅, tt, [EGet (Demo.base_case "A") (page_params 1); ELog INFO (LogLoadedCases 2 "A")]).
Proof. vm_compute. reflexivity. Qed.

Lemma shop_unmapped_copy_results :
  @copy_results unit Demo.shop_unmapped 5 "A" 1 "B" 5 tt =
  (Ok tt, tt,
   [ELog INFO LogBuildingMapping;
    EGet (Demo.base_case "A") (page_params 1);
    ELog INFO (LogLoadedCases 2 "A");
    ELog INFO (LogMappingKeys 0);
    ELog ERROR LogNoMappingIdInA]).
Proof. vm_compute. reflexivity. Qed.

Lemma copy_results_empty_mapping_witness :
  @copy_results unit Demo.shop_unmapped 5 "A" 1 "B" 5 tt =
  (Ok tt, tt,
   [ELog INFO LogBuildingMapping;
    EGet (Demo.base_case "A") (page_params 1);
    ELog INFO (LogLoadedCases 2 "A");
    ELog INFO (LogMappingKeys 0);
    ELog ERROR LogNoMappingIdInA]).
Proof.
  apply (proj1 (@copy_results_empty_mapping unit Demo.shop_unmapped 5 "A" 1 "B" 5 tt tt ∅
                  _ shop_unmapped_build_mapping eq_refl)).
Defined.

(** C7, as the spec has it, fails: on a project A without mapping values
    the run is over after the error record and no summary has been dumped,
    so there is none whose counters are 0. *)
Lemma copy_results_empty_mapping_no_summary :
  (@build_mapping unit Demo.shop_unmapped 5 "A" tt).1.1 = Ok ∅ /\
  ~ (exists (w' : unit) (tr : list event) (path : string) (summary : Summary),
       @copy_results unit Demo.shop_unmapped 5 "A" 1 "B" 5 tt = (Ok tt, w', tr) /\
       In (EDumpSummary path summary) tr /\
       copied summary = 0 /\ skipped summary = 0 /\ errors summary = 0).
Proof.
  split; [now rewrite shop_unmapped_build_mapping |].
  intros (w' & tr & path & summary & Hrun & Hin & _).
  rewrite shop_unmapped_copy_results in Hrun. injection Hrun as _ <-.
  cbn in Hin. intuition discriminate.
Qed.

Lemma shop_resolves_10 :
  @resolves unit Demo.shop "B" (Demo.result_of 5 10 "PASSED") tt (PStr "PASSED") "1001" tt
            [EGet "https://api.qase.io/v1/case/B/10" None].
Proof.
  exists (PInt 10), (Demo.case_with 10 (PStr "1001")).
  repeat split; vm_compute; reflexivity.
Defined.

Lemma shop_resolves_11 :
  @resolves unit Demo.shop "B" (Demo.result_of 5 11 "Failed") tt (PStr "Failed") "1002" tt
            [EGet "https://api.qase.io/v1/case/B/11" None].
Proof.
  exists (PInt 11), (Demo.case_with 11 (PStr "1002")).
  repeat split; vm_compute; reflexivity.
Defined.

Lemma shop_resolves_14 :
  @resolves unit Demo.shop "B" (Demo.result_of 5 14 "blocked") tt (PStr "blocked") "1000" tt
            [EGet "https://api.qase.io/v1/case/B/14" None].
Proof.
  exists (PInt 14), (Demo.case_with 14 (PStr "1000")).
  repeat split; vm_compute; reflexivity.
Defined.

Lemma copy_one_payload_witness :
  exists (o : outcome Summary) (w2 : unit) (record : log_record) (lvl : log_level),
    @copy_one unit Demo.shop "A" 1 "B" 5 Demo.mapping_a Demo.zero
              (Demo.result_of 5 10 "PASSED") tt =
    (o, w2,
     [EGet "https://api.qase.io/v1/case/B/10" None;
      EPost "https://api.qase.io/v1/result/A/1"
            (PDict [("case_id", PInt 3); ("status", PStr "passed");
                    ("comment", PStr "Copied from B run 5")]);
      ELog lvl record]) /\
    Forall (fun e => is_post e = false) [EGet "https://api.qase.io/v1/case/B/10" None] /\
    PStr "passed" <> convert_status (PStr "PASSED").
Proof.
  apply (@copy_one_payload unit Demo.shop "A" 1 "B" 5 Demo.mapping_a Demo.zero
           (Demo.result_of 5 10 "PASSED") (PStr "PASSED") (PInt 3) "1001" tt tt
           [EGet "https://api.qase.io/v1/case/B/10" None] shop_resolves_10).
  - vm_compute. reflexivity.
  - reflexivity.
Defined.

Lemma copy_one_write_failure_witness :
  @copy_loop unit Demo.shop "A" 1 "B" 5 Demo.mapping_a
             [Demo.result_of 5 11 "Failed"; Demo.result_of 5 10 "PASSED"] Demo.zero tt =
  (Ok (mkSummary 1 0 1), tt,
   [EGet "https://api.qase.io/v1/case/B/11" None;
    EPost "https://api.qase.io/v1/result/A/1"
          (PDict [("case_id", PInt 2); ("status", PStr "failed");
                  ("comment", PStr "Copied from B run 5")]);
    ELog ERROR (LogPostError (RuntimeError
      "POST https://api.qase.io/v1/result/A/1 failed: 500 Internal Server Error"));
    EGet "https://api.qase.io/v1/case/B/10" None;
    EPost "https://api.qase.io/v1/result/A/1"
          (PDict [("case_id", PInt 3); ("status", PStr "passed");
                  ("comment", PStr "Copied from B run 5")]);
    ELog INFO (LogCopied "1001" (PInt 3))]).
Proof.
  destruct (@copy_one_write_failure unit Demo.shop "A" 1 "B" 5 Demo.mapping_a Demo.zero
              (Demo.result_of 5 11 "Failed") (PStr "Failed") (PInt 2) "1002" tt tt tt
              [EGet "https://api.qase.io/v1/case/B/11" None] Demo.server_error
              shop_resolves_11)
    as (e & t & Ht & _ & Hone & _ & Hnext).
  - vm_compute. reflexivity.
  - reflexivity.
  - reflexivity.
  - right. exists (mkResponse 500 "Internal Server Error" None).
    split; [reflexivity |]. split; discriminate.
  - assert (He : e = RuntimeError
                       "POST https://api.qase.io/v1/result/A/1 failed: 500 Internal Server Error").
    { assert (Hrun : @copy_one unit Demo.shop "A" 1 "B" 5 Demo.mapping_a Demo.zero
                       (Demo.result_of 5 11 "Failed") tt
                     = (Ok (add_errors Demo.zero), tt,
                        [EGet "https://api.qase.io/v1/case/B/11" None;
                         EPost "https://api.qase.io/v1/result/A/1"
                               (PDict [("case_id", PInt 2); ("status", PStr "failed");
                                       ("comment", PStr "Copied from B run 5")]);
                         ELog ERROR (LogPostError (RuntimeError
      "POST https://api.qase.io/v1/result/A/1 failed: 500 Internal Server Error"))]))
        by (vm_compute; reflexivity).
      rewrite Hone, Ht in Hrun. now injection Hrun as Hrun. }
    rewrite (Hnext (Demo.result_of 5 10 "PASSED") (PStr "PASSED") (PInt 3) "1001" tt tt
               [EGet "https://api.qase.io/v1/case/B/10" None]
               (mkResponse 200 "(json)" (Some (PDict [("status", PBool true)])))
               (PDict [("status", PBool true)]) shop_resolves_10).
    + rewrite Ht, He. reflexivity.
    + vm_compute. reflexivity.
    + reflexivity.
    + reflexivity.
    + now left.
    + reflexivity.
Defined.

Lemma copy_one_target_zero_witness :
  @copy_one unit Demo.shop "A" 1 "B" 5 Demo.mapping_a Demo.zero
            (Demo.result_of 5 14 "blocked") tt =
  (Ok (mkSummary 0 1 0), tt,
   [EGet "https://api.qase.io/v1/case/B/14" None; ELog INFO (LogNoMappingFor "1000")]).
Proof.
  apply (@copy_one_target_zero unit Demo.shop "A" 1 "B" 5 Demo.mapping_a Demo.zero
           (Demo.result_of 5 14 "blocked") (PStr "blocked") "1000" tt tt
           [EGet "https://api.qase.io/v1/case/B/14" None] shop_resolves_14).
  vm_compute. reflexivity.
Defined.

(** C1 fails on the script.  The first result of run 5 names a case the
    service answers with 404: [api_get] raises, nothing around [get_case]
    catches it, and the run ends there with the exception.  [errors] is not
    touched, the six results that follow are not looked at, and no summary
    is dumped. *)
Theorem copy_results_case_fetch_failure_aborts :
  @copy_results unit Demo.shop_unknown_case 5 "A" 1 "B" 5 tt =
  (Raised (RuntimeError "GET https://api.qase.io/v1/case/B/16 failed: 404 Not Found"), tt,
   [ELog INFO LogBuildingMapping;
    EGet (Demo.base_case "A") (page_params 1);
    ELog INFO (LogLoadedCases 5 "A");
    ELog INFO (LogMappingKeys 3);
    ELog INFO LogFetchingResults;
    EGet (Demo.base_result "B") (page_params 1);
    ELog INFO (LogFetched 8 "B");
    ELog INFO (LogFiltered 7 5);
    EGet "https://api.qase.io/v1/case/B/16" None]).
Proof. vm_compute. reflexivity. Qed.

(** C6 fails on the script where the value is [null]: [str(None)] is the
    text None, which is not empty, so the case enters the table under the
    key None. *)
Theorem build_mapping_null_value_enters :
  carried_value (Demo.case_with 7 PNone) = inr (Some "None") /\
  @build_mapping unit Demo.shop_null_value 5 "A" tt =
  (Ok {["None" := PInt 7]}, tt,
   [EGet (Demo.base_case "A") (page_params 1); ELog INFO (LogLoadedCases 1 "A")]).
Proof. split; vm_compute; reflexivity. Qed.

(** ** More of the script *)

(** *** Stripped text *)

Lemma rstrip_cons (c : ascii) (s : string) :
  Py.rstrip (String c s) =
  match Py.rstrip s with
  | EmptyString => if Py.isspace c then EmptyString else String c EmptyString
  | r => String c r
  end.
Proof. reflexivity. Qed.

Lemma rstrip_idempotent (s : string) : Py.rstrip (Py.rstrip s) = Py.rstrip s.
Proof.
  induction s as [| c s IH]; [reflexivity |].
  rewrite rstrip_cons. destruct (Py.rstrip s) as [| c2 r] eqn:Hr.
  - destruct (Py.isspace c) eqn:Hc; [reflexivity |]. cbn. now rewrite Hc.
  - now rewrite rstrip_cons, IH.
Qed.

Lemma rstrip_keeps_head (c : ascii) (s : string) :
  Py.isspace c = false -> exists r, Py.rstrip (String c s) = String c r.
Proof.
  intros Hc. cbn [Py.rstrip]. destruct (Py.rstrip s); rewrite ?Hc; eauto.
Qed.

Lemma lstrip_head (s : string) :
  Py.lstrip s = EmptyString \/
  exists c s', Py.lstrip s = String c s' /\ Py.isspace c = false.
Proof.
  induction s as [| c s IH]; [now left |].
  cbn [Py.lstrip]. destruct (Py.isspace c) eqn:Hc; [exact IH | right; eauto].
Qed.

Lemma strip_idempotent (s : string) : Py.strip (Py.strip s) = Py.strip s.
Proof.
  unfold Py.strip. destruct (lstrip_head s) as [-> | (c & s' & -> & Hc)]; [reflexivity |].
  destruct (rstrip_keeps_head c s' Hc) as (r & Hr).
  rewrite Hr at 1. cbn [Py.lstrip]. rewrite Hc, <- Hr. apply rstrip_idempotent.
Qed.

Section Coverage.
Context {World : Type} `{Remote World}.

(** *** Computations, whatever their outcome *)

Lemma bind_inv {A B} (m : M World A) (k : A -> M World B) (w w2 : World) (o : outcome B)
    (t : list event) :
  bind m k w = (o, w2, t) ->
  (exists a w1 t1 t2, m w = (Ok a, w1, t1) /\ k a w1 = (o, w2, t2) /\ t = t1 ++ t2) \/
  (exists e, m w = (Raised e, w2, t) /\ o = Raised e) \/
  (m w = (OutOfFuel, w2, t) /\ o = OutOfFuel).
Proof.
  unfold bind. destruct (m w) as [[[a | e |] w1] t1].
  - destruct (k a w1) as [[o2 w3] t2] eqn:Hk. intros [= <- <- <-].
    left. now exists a, w1, t1, t2.
  - intros [= <- <- <-]. right. left. eauto.
  - intros [= <- <- <-]. right. right. eauto.
Qed.

(** *** [api_get] and [api_post] *)

Lemma api_get_events (url : string) (params : query) (w w' : World)
    (o : outcome pyval) (t : list event) :
  api_get url params w = (o, w', t) -> t = [EGet url params].
Proof.
  intros Hrun. unfold api_get, http_get, bind in Hrun.
  destruct (requests_get url params w) as [[| r] w1]; [now injection Hrun as _ _ <- |].
  destruct (negb (status_code r =? 200)); [now injection Hrun as _ _ <- |].
  unfold response_json in Hrun. destruct (json r); now injection Hrun as _ _ <-.
Qed.

Lemma api_post_events (url : string) (payload : pyval) (w w' : World)
    (o : outcome pyval) (t : list event) :
  api_post url payload w = (o, w', t) -> t = [EPost url payload].
Proof.
  intros Hrun. unfold api_post, http_post, bind in Hrun.
  destruct (requests_post url payload w) as [[| r] w1]; [now injection Hrun as _ _ <- |].
  destruct (negb _); [now injection Hrun as _ _ <- |].
  unfold response_json in Hrun. destruct (json r); now injection Hrun as _ _ <-.
Qed.

(** X1. [api_get] sends one GET and nothing else.  It returns the decoded
    body only for a response with the status 200 whose body decodes; no
    response raises the exception of [requests], any other status (201
    included) raises a RuntimeError naming the verb, the URL, the status
    and the text of the response, and a body that does not decode raises
    the exception of the decoder. *)
Theorem api_get_outcome (url : string) (params : query) (w w' : World)
    (o : outcome pyval) (t : list event) :
  api_get url params w = (o, w', t) ->
  t = [EGet url params] /\
  exists hr,
    requests_get url params w = (hr, w') /\
    match hr with
    | ConnectionFailed => o = Raised RequestException
    | Replied r =>
        if status_code r =? 200
        then match json r with
             | Some body => o = Ok body
             | None => o = Raised JSONDecodeError
             end
        else o = Raised (RuntimeError
                           ("GET " +:+ url +:+ " failed: " +:+ Py.str_of_int (status_code r)
                            +:+ " " +:+ text r))
    end.
Proof.
  unfold api_get, http_get, response_json, bind.
  destruct (requests_get url params w) as [[| r] w1] eqn:Hreq.
  - intros [= <- <- <-]. split; [reflexivity |]. now exists ConnectionFailed.
  - destruct (status_code r =? 200) eqn:Hs; cbn [negb].
    + destruct (json r) as [body |] eqn:Hj; intros [= <- <- <-];
        (split; [reflexivity |]); exists (Replied r); rewrite Hs, Hj; auto.
    + intros [= <- <- <-]. split; [reflexivity |]. exists (Replied r). now rewrite Hs.
Qed.

(** X2. [api_post] sends one POST and nothing else.  It returns the
    decoded body for the statuses 200 and 201 when the body decodes;
    every other status raises a RuntimeError with the verb POST, the URL,
    the status and the text. *)
Theorem api_post_outcome (url : string) (payload : pyval) (w w' : World)
    (o : outcome pyval) (t : list event) :
  api_post url payload w = (o, w', t) ->
  t = [EPost url payload] /\
  exists hr,
    requests_post url payload w = (hr, w') /\
    match hr with
    | ConnectionFailed => o = Raised RequestException
    | Replied r =>
        if (status_code r =? 200) || (status_code r =? 201)
        then match json r with
             | Some body => o = Ok body
             | None => o = Raised JSONDecodeError
             end
        else o = Raised (RuntimeError
                           ("POST " +:+ url +:+ " failed: " +:+ Py.str_of_int (status_code r)
                            +:+ " " +:+ text r))
    end.
Proof.
  unfold api_post, http_post, response_json, bind.
  destruct (requests_post url payload w) as [[| r] w1] eqn:Hreq.
  - intros [= <- <- <-]. split; [reflexivity |]. now exists ConnectionFailed.
  - destruct ((status_code r =? 200) || (status_code r =? 201)) eqn:Hs; cbn [negb].
    + destruct (json r) as [body |] eqn:Hj; intros [= <- <- <-];
        (split; [reflexivity |]); exists (Replied r); rewrite Hs, Hj; auto.
    + intros [= <- <- <-]. split; [reflexivity |]. exists (Replied r). now rewrite Hs.
Qed.

(** *** [paginate], whatever the service answers *)

Lemma iter_len (v : pyval) (more : list pyval) (n : Z) :
  Py.iter v = inr more -> Py.len v = inr n -> n = Z.of_nat (length more).
Proof.
  destruct v as [| b | z | s | l | d]; cbn; try discriminate.
  - intros [= <-] [= <-]. f_equal. induction s as [| c s IH]; cbn; [reflexivity | now rewrite IH].
  - now intros [= <-] [= <-].
  - intros [= <-] [= <-]. now rewrite length_map.
Qed.

(** X3. The requests of [paginate] are numbered without gap or repeat:
    started at [page], the loop asks for [page], [page + 1], ... and for
    nothing else, whatever the service answers and however the loop ends.
    When it returns, it has made at least one request, what it returns
    starts with the items it was entered with, and every request but the
    last added at least 100 items. *)
Theorem paginate_loop_requests (url : string) (fuel : nat) :
  forall (page : Z) (acc : list pyval) (w w' : World) (o : outcome (list pyval))
         (t : list event),
  paginate_loop fuel url page acc w = (o, w', t) ->
  exists n : nat,
    (n <= fuel)%nat /\
    t = page_requests url page n /\
    forall items, o = Ok items ->
      (1 <= n)%nat /\
      exists more, items = acc ++ more /\ (100 * (n - 1) <= length more)%nat.
Proof.
  induction fuel as [| fuel IH]; intros page acc w w' o t Hrun.
  - injection Hrun as <- _ <-. exists 0%nat. split; [lia |]. split; [reflexivity | discriminate].
  - rewrite paginate_loop_S in Hrun.
    assert (Hone : forall (o1 : outcome (list pyval)),
               (forall items, o1 = Ok items -> items = acc) ->
               exists n : nat,
                 (n <= S fuel)%nat /\
                 [EGet url (page_params page)] ++ [] = page_requests url page n /\
                 forall items, o1 = Ok items ->
                   (1 <= n)%nat /\
                   exists more, items = acc ++ more /\ (100 * (n - 1) <= length more)%nat).
    { intros o1 Ho1. exists 1%nat. split; [lia |]. split.
      - unfold page_requests. cbn. now rewrite Z.add_0_r.
      - intros items Hitems. split; [lia |]. exists []. rewrite app_nil_r.
        split; [now apply Ho1 | cbn; lia]. }
    apply bind_inv in Hrun as [(resp & w1 & t1 & t2 & Hget & Hk & ->) | [(e & Hget & ->) | (Hget & ->)]].
    2: { apply api_get_events in Hget as ->.
         rewrite <- (app_nil_r [EGet url (page_params page)]). apply Hone. discriminate. }
    2: { apply api_get_events in Hget as ->.
         rewrite <- (app_nil_r [EGet url (page_params page)]). apply Hone. discriminate. }
    apply api_get_events in Hget as ->.
    destruct (Py.get resp "result" (PDict [])) as [e | result];
      [rewrite bind_lift_inl in Hk; injection Hk as <- _ <-; apply Hone; discriminate |].
    rewrite bind_lift_inr in Hk.
    destruct (find_entities result container_keys) as [e | entities];
      [rewrite bind_lift_inl in Hk; injection Hk as <- _ <-; apply Hone; discriminate |].
    rewrite bind_lift_inr in Hk.
    destruct (negb (Py.truthy entities));
      [injection Hk as <- _ <-; apply Hone; now intros items [= <-] |].
    destruct (Py.iter entities) as [e | more] eqn:Hiter;
      [rewrite bind_lift_inl in Hk; injection Hk as <- _ <-; apply Hone; discriminate |].
    rewrite bind_lift_inr in Hk.
    destruct (Py.len entities) as [e | len] eqn:Hlen;
      [rewrite bind_lift_inl in Hk; injection Hk as <- _ <-; apply Hone; discriminate |].
    rewrite bind_lift_inr in Hk.
    pose proof (iter_len _ _ _ Hiter Hlen) as ->.
    destruct (Z.ltb_spec (Z.of_nat (length more)) 100) as [Hshort | Hfull].
    + injection Hk as <- _ <-. exists 1%nat. split; [lia |]. split.
      * unfold page_requests. cbn. now rewrite Z.add_0_r.
      * intros items [= <-]. split; [lia |]. exists more. split; [reflexivity | cbn; lia].
    + apply IH in Hk as (n & Hn & -> & Hok). exists (S n). split; [lia |]. split.
      * now rewrite page_requests_cons.
      * intros items Hitems. destruct (Hok items Hitems) as (Hn1 & more2 & -> & Hlen2).
        split; [lia |]. exists (more ++ more2). rewrite app_assoc. split; [reflexivity |].
        rewrite length_app. lia.
Qed.

(** X4. A collection of any size served in pages of 100 is read whole and
    in order with [length coll / 100 + 1] requests, given that much fuel:
    a collection whose size is a multiple of 100, the empty one included,
    costs one request more, answered with an empty page. *)
Theorem paginate_served_collection (Inv : World -> Prop) (url : string) (coll : list pyval)
    (fuel : nat) (w : World) :
  serves_pages Inv url coll ->
  Inv w ->
  (length coll < 100 * fuel)%nat ->
  exists w',
    paginate fuel url w = (Ok coll, w', page_requests url 1 (S (length coll / 100))) /\
    Inv w'.
Proof.
  intros Hserves Hw Hfuel.
  destruct (paginate_loop_serves Inv url coll Hserves fuel 1 [] w Hw) as (w' & Hloop & Hw');
    [lia | |].
  - change (100 * (Z.to_nat 1 - 1))%nat with 0%nat. now rewrite drop_0.
  - exists w'. split; [| exact Hw']. unfold paginate. rewrite Hloop.
    change (100 * (Z.to_nat 1 - 1))%nat with 0%nat. now rewrite drop_0.
Qed.

(** X5. A page answered with a status other than 200 ends [paginate] with
    the RuntimeError of [api_get]: the items of the pages read before are
    not returned, and the page is not asked for again. *)
Theorem paginate_loop_page_failure (fuel : nat) (url : string) (page : Z)
    (acc : list pyval) (w w' : World) (r : response) :
  requests_get url (page_params page) w = (Replied r, w') ->
  status_code r <> 200 ->
  paginate_loop (S fuel) url page acc w =
  (Raised (RuntimeError ("GET " +:+ url +:+ " failed: " +:+ Py.str_of_int (status_code r)
                         +:+ " " +:+ text r)),
   w', [EGet url (page_params page)]).
Proof.
  intros Hreq Hstatus. rewrite paginate_loop_S. apply bind_raised.
  unfold api_get, http_get, bind. rewrite Hreq.
  apply Z.eqb_neq in Hstatus. now rewrite Hstatus.
Qed.

(** X6. A page whose envelope has no ["result"], or whose ["result"] is a
    [dict] with none of the four container keys, ends the loop like an
    empty page: [paginate] returns what it has read so far, without an
    exception and without another request. *)
Theorem paginate_loop_no_container (fuel : nat) (url : string) (page : Z)
    (acc : list pyval) (w w' : World) (r : response) (top : list (string * pyval)) :
  requests_get url (page_params page) w = (Replied r, w') ->
  status_code r = 200 ->
  json r = Some (PDict top) ->
  Py.assoc "result" top = None \/
  (exists result, Py.assoc "result" top = Some (PDict result) /\
                  first_present container_keys result = None) ->
  paginate_loop (S fuel) url page acc w = (Ok acc, w', [EGet url (page_params page)]).
Proof.
  intros Hreq Hstatus Hjson Hnone.
  rewrite paginate_loop_S, (bind_ok _ _ _ _ _ _ (api_get_ok _ _ _ _ _ _ Hreq Hstatus Hjson)).
  cbn [Py.get].
  destruct Hnone as [Htop | (result & Htop & Hfirst)]; rewrite Htop; cbn [default from_option id];
    rewrite bind_lift_inr; cbv beta; rewrite find_entities_dict.
  - reflexivity.
  - now rewrite Hfirst.
Qed.

End Coverage.

(** *** [extract_custom_field_value] *)

(** X7. The first entry whose id equals the field id decides: the value
    returned is its stringified, stripped value, and what follows it in
    the list is not looked at, be it a second entry for the same field or
    something that is no entry at all. *)
Theorem extract_first_match (field_id : Z) (pre rest : list pyval)
    (entry : list (string * pyval)) :
  Forall (fun item => exists d, item = PDict d /\
                                Py.eq_int (default PNone (Py.assoc "id" d)) field_id = false)
         pre ->
  Py.eq_int (default PNone (Py.assoc "id" entry)) field_id = true ->
  extract_custom_field_value (PList (pre ++ PDict entry :: rest)) field_id =
  inr (Some (Py.strip (Py.str (default PNone (Py.assoc "value" entry))))).
Proof.
  intros Hpre Hentry. unfold extract_custom_field_value. cbn [Py.iter ebind].
  induction Hpre as [| item pre (d & -> & Hid) _ IH]; cbn.
  - now rewrite Hentry.
  - now rewrite Hid.
Qed.

Lemma extract_loop_stripped (field_id : Z) (items : list pyval) (s : string) :
  extract_loop items field_id = inr (Some s) -> Py.strip s = s.
Proof.
  induction items as [| item items IH]; cbn; [discriminate |].
  destruct (Py.get item "id" PNone) as [e | id]; cbn; [discriminate |].
  destruct (Py.eq_int id field_id); [| exact IH].
  destruct (Py.get item "value" PNone) as [e | value]; cbn; [discriminate |].
  intros [= <-]. apply strip_idempotent.
Qed.

(** X8. A value that [extract_custom_field_value] returns has no white
    space at either end: stripping it again changes nothing. *)
Theorem extract_custom_field_value_stripped (cf_list : pyval) (field_id : Z) (s : string) :
  extract_custom_field_value cf_list field_id = inr (Some s) -> Py.strip s = s.
Proof.
  unfold extract_custom_field_value.
  destruct (Py.iter cf_list) as [e | items]; cbn; [discriminate |].
  apply extract_loop_stripped.
Qed.

Lemma carried_value_shape (case : pyval) (k : string) :
  carried_value case = inr (Some k) -> k <> EmptyString /\ Py.strip k = k.
Proof.
  unfold carried_value.
  destruct (Py.get case "custom_fields" (PList [])) as [e | cf_list]; cbn; [discriminate |].
  destruct (extract_custom_field_value cf_list MAPPING_FIELD_ID) as [e | [s |]] eqn:Hx; cbn;
    try discriminate.
  destruct (String.eqb_spec s EmptyString) as [-> | Hne]; [discriminate |].
  intros [= <-]. split; [exact Hne |].
  unfold extract_custom_field_value in Hx.
  destruct (Py.iter cf_list) as [e | items]; cbn in Hx; [discriminate |].
  eapply extract_loop_stripped; eauto.
Qed.

(** *** The table of [build_mapping] *)

Lemma build_mapping_loop_raises (pre post : list pyval) (c : pyval) (e : exn) :
  forall mapping mapping1 : gmap string pyval,
  build_mapping_loop pre mapping = inr mapping1 ->
  build_mapping_step mapping1 c = inl e ->
  build_mapping_loop (pre ++ c :: post) mapping = inl e.
Proof.
  induction pre as [| c0 pre IH]; cbn; intros mapping mapping1 Hpre Hstep.
  - injection Hpre as <-. now rewrite Hstep.
  - destruct (build_mapping_step mapping c0) as [e0 | m0]; cbn in *; [discriminate |].
    eapply IH; eauto.
Qed.

Lemma build_mapping_loop_sound (cases : list pyval) :
  forall (mapping0 mapping : gmap string pyval) (k : string) (id : pyval),
  build_mapping_loop cases mapping0 = inr mapping ->
  mapping !! k = Some id ->
  mapping0 !! k = Some id \/
  exists c, In c cases /\ carried_value c = inr (Some k) /\ Py.getitem c "id" = inr id.
Proof.
  induction cases as [| c cases IH]; cbn; intros mapping0 mapping k id Hloop Hk.
  - injection Hloop as <-. now left.
  - destruct (build_mapping_step mapping0 c) as [e | m1] eqn:Hstep; cbn in Hloop;
      [discriminate |].
    destruct (IH _ _ _ _ Hloop Hk) as [Hm1 | (c' & Hin & Hc' & Hid')];
      [| right; exists c'; auto].
    rewrite build_mapping_step_carried in Hstep.
    destruct (carried_value c) as [e | [mv |]] eqn:Hc; [discriminate | |].
    + destruct (Py.getitem c "id") as [e | id0] eqn:Hid; cbn in Hstep; [discriminate |].
      injection Hstep as <-.
      destruct (decide (mv = k)) as [-> | Hne].
      * rewrite lookup_insert_eq in Hm1. injection Hm1 as ->. right. exists c. auto.
      * rewrite lookup_insert_ne in Hm1 by exact Hne. now left.
    + injection Hstep as <-. now left.
Qed.

Lemma build_mapping_loop_complete (k : string) (cases : list pyval) :
  forall mapping0 mapping : gmap string pyval,
  build_mapping_loop cases mapping0 = inr mapping ->
  is_Some (mapping0 !! k) \/ (exists c, In c cases /\ carried_value c = inr (Some k)) ->
  is_Some (mapping !! k).
Proof.
  induction cases as [| c cases IH]; cbn; intros mapping0 mapping Hloop Hk.
  - injection Hloop as <-. destruct Hk as [Hk | (c & [] & _)]. exact Hk.
  - destruct (build_mapping_step mapping0 c) as [e | m1] eqn:Hstep; cbn in Hloop;
      [discriminate |].
    apply (IH _ _ Hloop).
    rewrite build_mapping_step_carried in Hstep.
    destruct Hk as [Hk | (c' & [<- | Hin] & Hc')].
    + left. destruct (carried_value c) as [e | [mv |]]; [discriminate | |].
      * destruct (Py.getitem c "id") as [e | id0]; cbn in Hstep; [discriminate |].
        injection Hstep as <-. rewrite lookup_insert_is_Some. destruct (decide (mv = k)); auto.
      * now injection Hstep as <-.
    + left. rewrite Hc' in Hstep.
      destruct (Py.getitem c "id") as [e | id0]; cbn in Hstep; [discriminate |].
      injection Hstep as <-. rewrite lookup_insert_eq. eauto.
    + right. eauto.
Qed.

Lemma build_mapping_loop_size (cases : list pyval) :
  forall mapping0 mapping : gmap string pyval,
  build_mapping_loop cases mapping0 = inr mapping ->
  (size mapping <= size mapping0 + length cases)%nat.
Proof.
  induction cases as [| c cases IH]; cbn; intros mapping0 mapping Hloop.
  - injection Hloop as <-. lia.
  - destruct (build_mapping_step mapping0 c) as [e | m1] eqn:Hstep; cbn in Hloop;
      [discriminate |].
    apply IH in Hloop. rewrite build_mapping_step_carried in Hstep.
    destruct (carried_value c) as [e | [mv |]]; [discriminate | |].
    + destruct (Py.getitem c "id") as [e | id0]; cbn in Hstep; [discriminate |].
      injection Hstep as <-. rewrite map_size_insert in Hloop.
      destruct (mapping0 !! mv); cbn in Hloop; lia.
    + injection Hstep as <-. lia.
Qed.

Section CoverageMapping.
Context {World : Type} `{Remote World}.

(** X9. A case whose ["custom_fields"] is present but cannot be iterated
    ([null], a number, a boolean) ends [build_mapping] with the TypeError
    of the [for] loop: the default [[]] of [get] only stands in for a
    missing key.  The cases before it have been read without effect, no
    table is returned. *)
Theorem build_mapping_fields_not_iterable (fuel : nat) (project : string) (w w1 : World)
    (t1 : list event) (pre post : list pyval) (d : list (string * pyval)) (fields : pyval)
    (e : exn) (mapping1 : gmap string pyval) :
  get_all_cases fuel project w = (Ok (pre ++ PDict d :: post), w1, t1) ->
  build_mapping_loop pre ∅ = inr mapping1 ->
  Py.assoc "custom_fields" d = Some fields ->
  Py.iter fields = inl e ->
  e = TypeError /\
  build_mapping fuel project w =
  (Raised TypeError, w1,
   t1 ++ [ELog INFO (LogLoadedCases (length (pre ++ PDict d :: post)) project)]).
Proof.
  intros Hcases Hpre Hfields Hiter.
  assert (e = TypeError) as -> by (destruct fields; cbn in Hiter; congruence).
  split; [reflexivity |].
  rewrite (build_mapping_unfold _ _ _ _ _ _ Hcases).
  rewrite (build_mapping_loop_raises pre post (PDict d) TypeError ∅ mapping1 Hpre);
    [reflexivity |].
  unfold build_mapping_step, extract_custom_field_value. cbn [Py.get]. rewrite Hfields.
  cbn [default from_option id ebind]. now rewrite Hiter.
Qed.

(** X10. A case that carries a mapping value but has no ["id"] ends
    [build_mapping] with KeyError id; a case without a mapping value is
    never asked for its id. *)
Theorem build_mapping_missing_id (fuel : nat) (project : string) (w w1 : World)
    (t1 : list event) (pre post : list pyval) (d : list (string * pyval)) (v : string)
    (mapping1 : gmap string pyval) :
  get_all_cases fuel project w = (Ok (pre ++ PDict d :: post), w1, t1) ->
  build_mapping_loop pre ∅ = inr mapping1 ->
  carried_value (PDict d) = inr (Some v) ->
  Py.assoc "id" d = None ->
  build_mapping fuel project w =
  (Raised (KeyError "id"), w1,
   t1 ++ [ELog INFO (LogLoadedCases (length (pre ++ PDict d :: post)) project)]).
Proof.
  intros Hcases Hpre Hcarried Hid.
  rewrite (build_mapping_unfold _ _ _ _ _ _ Hcases).
  rewrite (build_mapping_loop_raises pre post (PDict d) (KeyError "id") ∅ mapping1 Hpre);
    [reflexivity |].
  rewrite build_mapping_step_carried, Hcarried. cbn [Py.getitem]. now rewrite Hid.
Qed.

(** X11. The table [build_mapping] returns holds exactly the mapping
    values the fetched cases carry: a key is in it if and only if some
    case carries it; every key is non-empty and stripped; the id under a
    key is the ["id"] of a case that carries this key; and there are no
    more keys than cases. *)
Theorem build_mapping_table (fuel : nat) (project : string) (w w1 w' : World)
    (t1 tr : list event) (cases : list pyval) (mapping : gmap string pyval) :
  get_all_cases fuel project w = (Ok cases, w1, t1) ->
  build_mapping fuel project w = (Ok mapping, w', tr) ->
  (forall k, is_Some (mapping !! k) <->
             exists c, In c cases /\ carried_value c = inr (Some k)) /\
  (forall k id, mapping !! k = Some id ->
     k <> EmptyString /\ Py.strip k = k /\
     exists c, In c cases /\ carried_value c = inr (Some k) /\ Py.getitem c "id" = inr id) /\
  (size mapping <= length cases)%nat.
Proof.
  intros Hcases Hbuild. rewrite (build_mapping_unfold _ _ _ _ _ _ Hcases) in Hbuild.
  destruct (build_mapping_loop cases ∅) as [e | m] eqn:Hloop; [discriminate |].
  injection Hbuild as <- _ _.
  assert (Hsound : forall k id, m !! k = Some id ->
            exists c, In c cases /\ carried_value c = inr (Some k) /\
                      Py.getitem c "id" = inr id).
  { intros k id Hk. destruct (build_mapping_loop_sound _ _ _ _ _ Hloop Hk) as [Hempty | Hc];
      [now rewrite lookup_empty in Hempty | exact Hc]. }
  split; [| split].
  - intros k. split.
    + intros (id & Hk). destruct (Hsound k id Hk) as (c & Hin & Hc & _). eauto.
    + intros Hc. apply (build_mapping_loop_complete k _ _ _ Hloop). now right.
  - intros k id Hk. destruct (Hsound k id Hk) as (c & Hin & Hc & Hid).
    destruct (carried_value_shape c k Hc) as (Hne & Hstrip). eauto 10.
  - apply build_mapping_loop_size in Hloop. rewrite map_size_empty in Hloop. lia.
Qed.

End CoverageMapping.

(** *** The filter on the run *)

(** X12. The list comprehension of [copy_results] keeps, in their order,
    exactly the results whose ["run_id"] equals [run_b] when every fetched
    result is a [dict]; one fetched item that is no [dict], in the run or
    not, ends it with AttributeError. *)
Theorem filter_run_outcome (run_b : Z) (all_results : list pyval) :
  (Forall (fun r => is_dict r = true) all_results ->
   filter_run all_results run_b = inr (List.filter (in_run run_b) all_results)) /\
  (Exists (fun r => is_dict r = false) all_results ->
   filter_run all_results run_b = inl AttributeError).
Proof.
  split.
  - induction 1 as [| r rest Hr _ IH]; [reflexivity |].
    destruct r; try discriminate. cbn. rewrite IH. cbn.
    unfold in_run. cbn. now destruct (Py.eq_int _ run_b).
  - induction 1 as [r rest Hr | r rest _ IH].
    + destruct r; try discriminate; reflexivity.
    + cbn. destruct (Py.get r "run_id" PNone) as [e | run_id] eqn:Hget; cbn.
      * destruct r; cbn in Hget; congruence.
      * now rewrite IH.
Qed.

(** *** [convert_status] again *)

Lemma lower_char_space (c : ascii) : Py.isspace c = true -> Py.lower_char c = c.
Proof.
  destruct c as [[] [] [] [] [] [] [] []]; intros Hc;
    try (vm_compute in Hc; discriminate Hc); reflexivity.
Qed.

(** X13. For a status that is no [int], [convert_status] returns one of
    the codes 1 to 5.  The text is lower-cased but not stripped: a status
    that starts with white space is code 4, whatever follows. *)
Theorem convert_status_codes (v : pyval) :
  Py.isinstance_int v = false ->
  (exists n, convert_status v = PInt n /\ 1 <= n <= 5) /\
  (forall c s, Py.str v = String c s -> Py.isspace c = true -> convert_status v = PInt 4).
Proof.
  intros Hv. unfold convert_status. rewrite Hv. split.
  - set (k := Py.lower (Py.str v)).
    destruct (string_dec k "passed") as [-> | H1]; [exists 1; split; [reflexivity | lia] |].
    destruct (string_dec k "failed") as [-> | H2]; [exists 5; split; [reflexivity | lia] |].
    destruct (string_dec k "skipped") as [-> | H3]; [exists 2; split; [reflexivity | lia] |].
    destruct (string_dec k "blocked") as [-> | H4]; [exists 3; split; [reflexivity | lia] |].
    exists 4. rewrite status_mapping_other by assumption. split; [reflexivity | lia].
  - intros c s -> Hc. cbn [Py.lower]. rewrite (lower_char_space c Hc).
    rewrite status_mapping_other; [reflexivity | ..];
      intros [= -> _]; vm_compute in Hc; discriminate Hc.
Qed.

Section CoverageLoop.
Context {World : Type} `{Remote World}.

(** *** What the parts of [copy_results] emit *)

Lemma emits_only_paginate (P : event -> Prop) (fuel : nat) (url : string) :
  (forall page, P (EGet url (page_params page))) -> emits_only P (paginate fuel url).
Proof.
  intros HP. unfold paginate. generalize 1 at 1. generalize (@nil pyval).
  induction fuel as [| fuel IH]; intros items page; [apply emits_only_out_of_fuel |].
  rewrite paginate_loop_S.
  apply emits_only_bind; [apply emits_only_api_get, HP | intros resp].
  apply emits_only_bind; [apply emits_only_lift | intros result].
  apply emits_only_bind; [apply emits_only_lift | intros entities].
  destruct (negb (Py.truthy entities)); [apply emits_only_ret |].
  apply emits_only_bind; [apply emits_only_lift | intros more].
  apply emits_only_bind; [apply emits_only_lift | intros n].
  destruct (n <? 100); [apply emits_only_ret | apply IH].
Qed.

Lemma emits_only_build_mapping (P : event -> Prop) (fuel : nat) (project : string) :
  (forall page, P (EGet (QASE_API_BASE +:+ "/case/" +:+ project) (page_params page))) ->
  (forall lvl r, P (ELog lvl r)) ->
  emits_only P (build_mapping fuel project).
Proof.
  intros HG HL. unfold build_mapping, get_all_cases.
  apply emits_only_bind; [now apply emits_only_paginate | intros cases].
  apply emits_only_bind; [apply emits_only_emit, HL | intros _; apply emits_only_lift].
Qed.

Lemma emits_only_copy_one (P : event -> Prop) (project_a : string) (run_a : Z)
    (project_b : string) (run_b : Z) (mapping_a : gmap string pyval) (summary : Summary)
    (res : pyval) :
  (forall case_id, P (EGet (case_url project_b case_id) None)) ->
  (forall payload, P (EPost (result_url project_a run_a) payload)) ->
  (forall lvl r, P (ELog lvl r)) ->
  emits_only P (copy_one project_a run_a project_b run_b mapping_a summary res).
Proof.
  intros HG HP HL. unfold copy_one.
  apply emits_only_bind; [apply emits_only_lift | intros case_id_b].
  apply emits_only_bind; [apply emits_only_lift | intros status_raw].
  apply emits_only_bind.
  { unfold get_case. apply emits_only_bind; [| intros resp; apply emits_only_lift].
    apply emits_only_api_get. exact (HG case_id_b). }
  intros case_b. destruct (negb (Py.truthy case_b)); [apply emits_only_ret |].
  apply emits_only_bind; [apply emits_only_lift | intros cf_list].
  apply emits_only_bind; [apply emits_only_lift | intros mapping_value].
  destruct (if_truthy mapping_value) as [mv |].
  - cbv zeta. destruct (negb _).
    + apply emits_only_bind; [apply emits_only_emit, HL | intros _; apply emits_only_ret].
    + apply emits_only_try_except.
      * apply emits_only_bind; [apply emits_only_api_post, HP | intros _].
        apply emits_only_bind; [apply emits_only_emit, HL | intros _; apply emits_only_ret].
      * intros e.
        apply emits_only_bind; [apply emits_only_emit, HL | intros _; apply emits_only_ret].
  - apply emits_only_bind; [apply emits_only_emit, HL | intros _; apply emits_only_ret].
Qed.

Lemma emits_only_copy_loop (P : event -> Prop) (project_a : string) (run_a : Z)
    (project_b : string) (run_b : Z) (mapping_a : gmap string pyval)
    (results_b : list pyval) :
  (forall case_id, P (EGet (case_url project_b case_id) None)) ->
  (forall payload, P (EPost (result_url project_a run_a) payload)) ->
  (forall lvl r, P (ELog lvl r)) ->
  forall summary,
  emits_only P (copy_loop project_a run_a project_b run_b mapping_a results_b summary).
Proof.
  intros HG HP HL. induction results_b as [| res rest IH]; intros summary; cbn [copy_loop].
  - apply emits_only_ret.
  - apply emits_only_bind; [now apply emits_only_copy_one | exact IH].
Qed.


(** *** Runs that end before the loop *)

(** X15. An exception while the mapping of project A is built ends
    [copy_results] with that exception right there: nothing has been
    posted and no summary is dumped. *)
Theorem copy_results_mapping_failure (fuel : nat) (project_a : string) (run_a : Z)
    (project_b : string) (run_b : Z) (w w1 : World) (e : exn) (t1 : list event) :
  build_mapping fuel project_a w = (Raised e, w1, t1) ->
  copy_results fuel project_a run_a project_b run_b w =
  (Raised e, w1, ELog INFO LogBuildingMapping :: t1) /\
  Forall (fun ev => is_post ev = false /\ is_dump ev = false)
         (ELog INFO LogBuildingMapping :: t1).
Proof.
  intros Hbuild. split.
  - unfold copy_results, logging_info.
    now rewrite bind_emit, (bind_raised _ _ _ _ _ _ Hbuild).
  - constructor; [now split |].
    refine (emits_only_build_mapping _ fuel project_a _ _ _ _ _ _ Hbuild); now split.
Qed.

(** X16. An exception while the results of project B are fetched, after
    a non-empty mapping was built, ends [copy_results] with that exception:
    no case of project B has been looked up, nothing has been posted and
    no summary is dumped. *)
Theorem copy_results_fetch_failure (fuel : nat) (project_a : string) (run_a : Z)
    (project_b : string) (run_b : Z) (w w1 w2 : World) (e : exn)
    (mapping_a : gmap string pyval) (t1 t2 : list event) :
  build_mapping fuel project_a w = (Ok mapping_a, w1, t1) ->
  mapping_a <> ∅ ->
  get_all_results fuel project_b w1 = (Raised e, w2, t2) ->
  copy_results fuel project_a run_a project_b run_b w =
  (Raised e, w2,
   ELog INFO LogBuildingMapping :: t1 ++
   ELog INFO (LogMappingKeys (size mapping_a)) :: ELog INFO LogFetchingResults :: t2) /\
  Forall (fun ev => is_post ev = false /\ is_dump ev = false /\
                    forall url, ev <> EGet url None)
         (ELog INFO LogBuildingMapping :: t1 ++
          ELog INFO (LogMappingKeys (size mapping_a)) :: ELog INFO LogFetchingResults :: t2).
Proof.
  intros Hbuild Hne Hfetch. split.
  - unfold copy_results, logging_info.
    rewrite bind_emit, (bind_ok _ _ _ _ _ _ Hbuild), bind_emit.
    destruct (Nat.eqb_spec (size mapping_a) 0) as [Hsize | _];
      [now apply map_size_empty_iff in Hsize |].
    unfold copy_from, logging_info.
    now rewrite bind_emit, (bind_raised _ _ _ _ _ _ Hfetch).
  - set (P := fun ev => is_post ev = false /\ is_dump ev = false /\
                        forall url, ev <> EGet url None).
    assert (HL : forall lvl r, P (ELog lvl r)) by (intros lvl r; repeat split; discriminate).
    assert (HG : forall url page, P (EGet url (page_params page)))
      by (intros url page; repeat split; discriminate).
    constructor; [apply HL |]. apply Forall_app. split.
    + refine (emits_only_build_mapping P fuel project_a _ HL _ _ _ _ Hbuild).
      intros page. apply HG.
    + constructor; [apply HL |]. constructor; [apply HL |].
      refine (emits_only_paginate P fuel _ _ _ _ _ _ Hfetch). intros page. apply HG.
Qed.

(** *** The summary file *)

Lemma dumps_last_quiet (m : M World unit) :
  emits_only (fun e => is_dump e = false) m -> dumps_last m.
Proof. intros Hm w o w' t Hrun. right. eapply Hm; eauto. Qed.

Lemma dumps_last_bind {A} (m : M World A) (k : A -> M World unit) :
  emits_only (fun e => is_dump e = false) m ->
  (forall a, dumps_last (k a)) ->
  dumps_last (bind m k).
Proof.
  intros Hm Hk w o w' t Hrun.
  apply bind_inv in Hrun as [(a & w1 & t1 & t2 & Hmw & Hka & ->) | [(e & Hmw & ->) | (Hmw & ->)]].
  - pose proof (Hm _ _ _ _ Hmw) as Ht1.
    destruct (Hk a _ _ _ _ Hka) as [(-> & before & s & -> & Hbefore) | Ht2].
    + left. split; [reflexivity |]. exists (t1 ++ before), s.
      split; [now rewrite app_assoc | now apply Forall_app].
    + right. now apply Forall_app.
  - right. eapply Hm; eauto.
  - right. eapply Hm; eauto.
Qed.

Lemma copy_results_dumps_last (fuel : nat) (project_a : string) (run_a : Z)
    (project_b : string) (run_b : Z) :
  dumps_last (copy_results fuel project_a run_a project_b run_b).
Proof.
  set (P := fun e => is_dump e = false).
  assert (HL : forall lvl r, P (ELog lvl r)) by reflexivity.
  unfold copy_results, logging_info, logging_error.
  apply dumps_last_bind; [apply emits_only_emit, HL | intros _].
  apply dumps_last_bind;
    [apply emits_only_build_mapping; [reflexivity | exact HL] | intros mapping_a].
  apply dumps_last_bind; [apply emits_only_emit, HL | intros _].
  destruct (Nat.eqb (size mapping_a) 0);
    [apply dumps_last_quiet, emits_only_emit, HL |].
  unfold copy_from, logging_info, get_all_results.
  apply dumps_last_bind; [apply emits_only_emit, HL | intros _].
  apply dumps_last_bind; [apply emits_only_paginate; reflexivity | intros all_results].
  apply dumps_last_bind; [apply emits_only_emit, HL | intros _].
  apply dumps_last_bind; [apply emits_only_lift | intros results_b].
  apply dumps_last_bind; [apply emits_only_emit, HL | intros _].
  apply dumps_last_bind; [apply emits_only_copy_loop; reflexivity || exact HL | intros summary].
  intros w o w' t. rewrite !bind_emit. unfold emit. intros [= <- <- <-].
  left. split; [reflexivity |]. exists [], summary. now split.
Qed.

(** X17. summary.json is written only by a run that ends normally, once,
    and as the last thing the run does but for two log records: a run
    that ends with an exception has written no summary, and nothing is
    fetched or posted after the dump. *)
Theorem copy_results_dump_is_last (fuel : nat) (project_a : string) (run_a : Z)
    (project_b : string) (run_b : Z) (w w' : World) (o : outcome unit) (tr : list event)
    (path : string) (summary : Summary) :
  copy_results fuel project_a run_a project_b run_b w = (o, w', tr) ->
  In (EDumpSummary path summary) tr ->
  o = Ok tt /\
  path = "summary.json" /\
  exists before,
    tr = before ++ [EDumpSummary "summary.json" summary; ELog INFO LogDone;
                    ELog INFO (LogSummary summary)] /\
    Forall (fun e => is_dump e = false) before.
Proof.
  intros Hrun Hin.
  destruct (copy_results_dumps_last _ _ _ _ _ _ _ _ _ Hrun)
    as [(-> & before & s & -> & Hbefore) | Hnone].
  - apply in_app_or in Hin as [Hin | Hin].
    + rewrite List.Forall_forall in Hbefore. now apply Hbefore in Hin.
    + destruct Hin as [[= <- <-] | [[=] | [[=] | []]]].
      split; [reflexivity |]. split; [reflexivity |]. now exists before.
  - rewrite List.Forall_forall in Hnone. now apply Hnone in Hin.
Qed.

(** *** The branches of the loop body *)

(** X18. A result whose case carries no mapping value (no entry for the
    mapping field, or one whose value strips to nothing) is counted in
    [skipped], not in [errors]; the fetch of the case is the only request
    made for it. *)
Theorem copy_one_no_value (project_a : string) (run_a : Z) (project_b : string) (run_b : Z)
    (mapping_a : gmap string pyval) (summary : Summary)
    (res case_id_b status_raw case_b : pyval) (w w1 : World) (t1 : list event) :
  Py.get res "case_id" PNone = inr case_id_b ->
  Py.get res "status" PNone = inr status_raw ->
  get_case project_b case_id_b w = (Ok case_b, w1, t1) ->
  Py.truthy case_b = true ->
  carried_value case_b = inr None ->
  copy_one project_a run_a project_b run_b mapping_a summary res w =
  (Ok (add_skipped summary), w1,
   [EGet (case_url project_b case_id_b) None; ELog INFO (LogSkippingCase case_id_b)]).
Proof.
  intros Hid Hstatus Hcase Htruthy Hcarried.
  rewrite copy_one_unfold, Hid, Hstatus, !bind_lift_inr, (bind_ok _ _ _ _ _ _ Hcase).
  rewrite Htruthy. cbn [negb]. rewrite Hcarried, bind_lift_inr.
  now rewrite (get_case_events _ _ _ _ _ _ Hcase).
Qed.

(** X19. A result whose mapping value is no key of the mapping of project
    A is counted in [skipped], and nothing is posted for it. *)
Theorem copy_one_unmapped (project_a : string) (run_a : Z) (project_b : string) (run_b : Z)
    (mapping_a : gmap string pyval) (summary : Summary) (res status_raw : pyval)
    (mv : string) (w w1 : World) (t1 : list event) :
  resolves project_b res w status_raw mv w1 t1 ->
  mapping_a !! mv = None ->
  copy_one project_a run_a project_b run_b mapping_a summary res w =
  (Ok (add_skipped summary), w1, t1 ++ [ELog INFO (LogNoMappingFor mv)]) /\
  posts (t1 ++ [ELog INFO (LogNoMappingFor mv)]) = 0%nat.
Proof.
  intros Hres Hlookup. split.
  - apply copy_one_no_target with (status_raw := status_raw); [exact Hres |].
    now rewrite Hlookup.
  - destruct Hres as (case_id_b & case_b & _ & _ & Hcase & _).
    now rewrite (get_case_events _ _ _ _ _ _ Hcase).
Qed.

(** X20. A case answered with 200 and an envelope whose ["result"] is
    missing, [null] or otherwise falsy counts the result in [errors]; the
    loop goes on, and nothing is posted. *)
Theorem copy_one_empty_case (project_a : string) (run_a : Z) (project_b : string)
    (run_b : Z) (mapping_a : gmap string pyval) (summary : Summary)
    (d top : list (string * pyval)) (w w1 : World) (r : response) :
  requests_get (case_url project_b (default PNone (Py.assoc "case_id" d))) None w
  = (Replied r, w1) ->
  status_code r = 200 ->
  json r = Some (PDict top) ->
  Py.truthy (default PNone (Py.assoc "result" top)) = false ->
  copy_one project_a run_a project_b run_b mapping_a summary (PDict d) w =
  (Ok (add_errors summary), w1,
   [EGet (case_url project_b (default PNone (Py.assoc "case_id" d))) None]).
Proof.
  intros Hreq Hstatus Hjson Hfalsy.
  assert (Hcase : get_case project_b (default PNone (Py.assoc "case_id" d)) w =
                  (Ok (default PNone (Py.assoc "result" top)), w1,
                   [EGet (case_url project_b (default PNone (Py.assoc "case_id" d))) None])).
  { unfold get_case. fold (case_url project_b (default PNone (Py.assoc "case_id" d))).
    now rewrite (bind_ok _ _ _ _ _ _ (api_get_ok _ _ _ _ _ _ Hreq Hstatus Hjson)). }
  rewrite (copy_one_case_missing project_a run_a project_b run_b mapping_a summary
             (PDict d) _ (default PNone (Py.assoc "status" d)) _ w w1 _
             eq_refl eq_refl Hcase Hfalsy).
  now rewrite app_nil_r.
Qed.

(** X21. An eligible result whose write is answered with 200 or 201 and a
    body that decodes is counted in [copied], after exactly one POST. *)
Theorem copy_one_copied (project_a : string) (run_a : Z) (project_b : string) (run_b : Z)
    (mapping_a : gmap string pyval) (summary : Summary) (res status_raw target : pyval)
    (mv : string) (w w1 w2 : World) (t1 : list event) (r : response) (body : pyval) :
  resolves project_b res w status_raw mv w1 t1 ->
  mapping_a !! mv = Some target ->
  Py.truthy target = true ->
  requests_post (result_url project_a run_a)
                (make_payload target status_raw project_b run_b) w1 = (Replied r, w2) ->
  status_code r = 200 \/ status_code r = 201 ->
  json r = Some body ->
  copy_one project_a run_a project_b run_b mapping_a summary res w =
  (Ok (add_copied summary), w2,
   t1 ++ [EPost (result_url project_a run_a)
                (make_payload target status_raw project_b run_b);
          ELog INFO (LogCopied mv target)]).
Proof.
  intros Hres Hlookup Htruthy Hpost Hstatus Hjson.
  rewrite (copy_one_write project_a run_a project_b run_b mapping_a summary
             _ _ _ _ _ _ _ _ _ Hres Hlookup Htruthy Hpost).
  cbn [post_failure]. rewrite Hjson. now destruct Hstatus as [-> | ->].
Qed.

(** X22. A write that the service answers with 200 or 201 but with a body
    that is no JSON document is counted in [errors], not in [copied]: the
    exception of the decoder is caught like a failed write, though the
    POST was sent and accepted. *)
Theorem copy_one_accepted_undecodable (project_a : string) (run_a : Z) (project_b : string)
    (run_b : Z) (mapping_a : gmap string pyval) (summary : Summary)
    (res status_raw target : pyval) (mv : string) (w w1 w2 : World) (t1 : list event)
    (r : response) :
  resolves project_b res w status_raw mv w1 t1 ->
  mapping_a !! mv = Some target ->
  Py.truthy target = true ->
  requests_post (result_url project_a run_a)
                (make_payload target status_raw project_b run_b) w1 = (Replied r, w2) ->
  status_code r = 200 \/ status_code r = 201 ->
  json r = None ->
  copy_one project_a run_a project_b run_b mapping_a summary res w =
  (Ok (add_errors summary), w2,
   t1 ++ [EPost (result_url project_a run_a)
                (make_payload target status_raw project_b run_b);
          ELog ERROR (LogPostError JSONDecodeError)]).
Proof.
  intros Hres Hlookup Htruthy Hpost Hstatus Hjson.
  rewrite (copy_one_write project_a run_a project_b run_b mapping_a summary
             _ _ _ _ _ _ _ _ _ Hres Hlookup Htruthy Hpost).
  cbn [post_failure]. rewrite Hjson. now destruct Hstatus as [-> | ->].
Qed.

(** *** The loop as a whole *)

Lemma posts_app (t1 t2 : list event) : posts (t1 ++ t2) = (posts t1 + posts t2)%nat.
Proof. unfold posts. now rewrite List.filter_app, length_app. Qed.

Lemma posts_get_cons (url : string) (q : query) (t : list event) :
  posts (EGet url q :: t) = posts t.
Proof. reflexivity. Qed.

Lemma after_case_trace (project_a : string) (run_a : Z) (project_b : string) (run_b : Z)
    (mapping_a : gmap string pyval) (summary summary' : Summary)
    (case_id_b status_raw : pyval) (carried : option string) (w w' : World)
    (t : list event) :
  after_case project_a run_a project_b run_b mapping_a summary case_id_b status_raw carried w
  = (Ok summary', w', t) ->
  List.filter is_get t = [] /\
  (posts t <= 1)%nat /\
  copied summary' - copied summary <= Z.of_nat (posts t).
Proof.
  unfold after_case, logging_info, logging_error. destruct carried as [mv |].
  - cbv zeta. destruct (negb _).
    + rewrite bind_emit. intros [= <- _ <-]. cbn. repeat split; lia.
    + intros Htry.
      apply try_except_inv_ok in Htry as [Hok | (e & w1 & t1 & t2 & Hm & Hh & ->)].
      * apply bind_inv_ok in Hok as (a & w1 & t1 & t2 & Hpost & Hk & ->).
        apply api_post_events in Hpost as ->.
        rewrite bind_emit in Hk. injection Hk as <- _ <-. cbn. repeat split; lia.
      * rewrite bind_emit in Hh. injection Hh as <- _ <-.
        apply bind_inv in Hm as [(a & w3 & t3 & t4 & _ & Hk & _) | [(e' & Hpost & _) | (_ & Hno)]].
        -- rewrite bind_emit in Hk. discriminate Hk.
        -- apply api_post_events in Hpost as ->. cbn. repeat split; lia.
        -- discriminate Hno.
  - rewrite bind_emit. intros [= <- _ <-]. cbn. repeat split; lia.
Qed.

Lemma copy_one_trace (project_a : string) (run_a : Z) (project_b : string) (run_b : Z)
    (mapping_a : gmap string pyval) (summary summary' : Summary) (res : pyval)
    (w w' : World) (t : list event) :
  copy_one project_a run_a project_b run_b mapping_a summary res w = (Ok summary', w', t) ->
  List.filter is_get t = [EGet (case_url project_b (case_id_of res)) None] /\
  (posts t <= 1)%nat /\
  copied summary' - copied summary <= Z.of_nat (posts t).
Proof.
  rewrite copy_one_unfold. intros Hrun.
  apply bind_inv_ok in Hrun as (case_id_b & w1 & t1 & t2 & Hid & Hrun & ->).
  apply lift_inv_ok in Hid as (Hid & -> & ->).
  apply bind_inv_ok in Hrun as (status_raw & w2 & t3 & t4 & Hstatus & Hrun & ->).
  apply lift_inv_ok in Hstatus as (Hstatus & -> & ->).
  apply bind_inv_ok in Hrun as (case_b & w3 & t5 & t6 & Hcase & Hrun & ->).
  rewrite (get_case_events _ _ _ _ _ _ Hcase).
  assert (Hcid : case_id_of res = case_id_b) by (unfold case_id_of; now rewrite Hid).
  rewrite Hcid. fold (case_url project_b case_id_b). cbn [app].
  cbn [List.filter is_get]. rewrite posts_get_cons.
  destruct (negb (Py.truthy case_b)).
  - injection Hrun as <- _ <-. cbn. repeat split; lia.
  - apply bind_inv_ok in Hrun as (carried & w4 & t7 & t8 & Hcarried & Hrun & ->).
    apply lift_inv_ok in Hcarried as (_ & -> & ->).
    apply after_case_trace in Hrun as (Hgets & Hposts & Hcopied).
    cbn [app]. now rewrite Hgets.
Qed.

(** X23. In a loop that ends normally each result of the run makes for
    exactly one fetch of a case, in the order of the results and with no
    memory of cases fetched before; there are at most as many POSTs as
    results, and [copied] grows by no more than the number of POSTs. *)
Theorem copy_loop_requests (project_a : string) (run_a : Z) (project_b : string) (run_b : Z)
    (mapping_a : gmap string pyval) (results_b : list pyval) :
  forall (summary summary' : Summary) (w w' : World) (t : list event),
  copy_loop project_a run_a project_b run_b mapping_a results_b summary w
  = (Ok summary', w', t) ->
  List.filter is_get t =
  List.map (fun res => EGet (case_url project_b (case_id_of res)) None) results_b /\
  (posts t <= length results_b)%nat /\
  copied summary' - copied summary <= Z.of_nat (posts t).
Proof.
  induction results_b as [| res rest IH]; intros summary summary' w w' t Hrun.
  - injection Hrun as <- _ <-. cbn. repeat split; lia.
  - cbn [copy_loop] in Hrun.
    apply bind_inv_ok in Hrun as (s1 & w1 & t1 & t2 & Hone & Hrest & ->).
    apply copy_one_trace in Hone as (Hget1 & Hpost1 & Hcopied1).
    apply IH in Hrest as (Hget2 & Hpost2 & Hcopied2).
    rewrite List.filter_app, Hget1, Hget2, posts_app. cbn [List.map length app].
    repeat split; lia.
Qed.

(** X24. No counter of the summary ever goes down in the loop, and none
    grows by more than the number of results processed. *)
Theorem copy_loop_counters (project_a : string) (run_a : Z) (project_b : string) (run_b : Z)
    (mapping_a : gmap string pyval) (results_b : list pyval) :
  forall (summary summary' : Summary) (w w' : World) (t : list event),
  copy_loop project_a run_a project_b run_b mapping_a results_b summary w
  = (Ok summary', w', t) ->
  copied summary <= copied summary' <= copied summary + Z.of_nat (length results_b) /\
  skipped summary <= skipped summary' <= skipped summary + Z.of_nat (length results_b) /\
  errors summary <= errors summary' <= errors summary + Z.of_nat (length results_b).
Proof.
  induction results_b as [| res rest IH]; intros summary summary' w w' t Hrun.
  - injection Hrun as <- _ _. cbn. lia.
  - cbn [copy_loop] in Hrun.
    apply bind_inv_ok in Hrun as (s1 & w1 & t1 & t2 & Hone & Hrest & _).
    apply IH in Hrest.
    apply copy_one_counts in Hone as [-> | [-> | ->]]; cbn [length] in *; cbn in Hrest; lia.
Qed.

End CoverageLoop.

(** ** More runs on example services *)

Lemma shop_api_get_unknown :
  @api_get unit Demo.shop (case_url "B" (PInt 16)) None tt =
  (Raised (RuntimeError "GET https://api.qase.io/v1/case/B/16 failed: 404 Not Found"), tt,
   [EGet (case_url "B" (PInt 16)) None]).
Proof. vm_compute. reflexivity. Qed.

Lemma api_get_outcome_witness :
  exists hr, @requests_get unit Demo.shop (case_url "B" (PInt 16)) None tt = (hr, tt) /\
             hr = Demo.not_found.
Proof.
  destruct (@api_get_outcome unit Demo.shop _ _ _ _ _ _ shop_api_get_unknown)
    as (_ & hr & Hreq & _).
  exists hr. split; [exact Hreq |]. vm_compute in Hreq. now injection Hreq as <-.
Defined.

Lemma shop_api_post_refused :
  @api_post unit Demo.shop (result_url "A" 1)
            (make_payload (PInt 2) (PStr "Failed") "B" 5) tt =
  (Raised (RuntimeError
     "POST https://api.qase.io/v1/result/A/1 failed: 500 Internal Server Error"), tt,
   [EPost (result_url "A" 1) (make_payload (PInt 2) (PStr "Failed") "B" 5)]).
Proof. vm_compute. reflexivity. Qed.

Lemma api_post_outcome_witness :
  exists hr, @requests_post unit Demo.shop (result_url "A" 1)
               (make_payload (PInt 2) (PStr "Failed") "B" 5) tt = (hr, tt) /\
             hr = Demo.server_error.
Proof.
  destruct (@api_post_outcome unit Demo.shop _ _ _ _ _ _ shop_api_post_refused)
    as (_ & hr & Hreq & _).
  exists hr. split; [exact Hreq |]. vm_compute in Hreq. now injection Hreq as <-.
Defined.

Lemma big_paginate_loop :
  @paginate_loop unit Demo.big 3 (Demo.base_case "BIG") 1 [] tt =
  (Ok Demo.coll250, tt,
   [EGet (Demo.base_case "BIG") (page_params 1);
    EGet (Demo.base_case "BIG") (page_params 2);
    EGet (Demo.base_case "BIG") (page_params 3)]).
Proof. vm_compute. reflexivity. Qed.

Lemma paginate_loop_requests_witness :
  exists n : nat,
    (n <= 3)%nat /\
    [EGet (Demo.base_case "BIG") (page_params 1);
     EGet (Demo.base_case "BIG") (page_params 2);
     EGet (Demo.base_case "BIG") (page_params 3)] = page_requests (Demo.base_case "BIG") 1 n /\
    (1 <= n)%nat.
Proof.
  destruct (@paginate_loop_requests unit Demo.big _ _ _ _ _ _ _ _ big_paginate_loop)
    as (n & Hn & Ht & Hok).
  exists n. split; [exact Hn |]. split; [exact Ht |].
  exact (proj1 (Hok Demo.coll250 eq_refl)).
Defined.

Lemma even_serves_pages :
  @serves_pages unit Scenarios.even (fun _ => True) (Demo.base_case "EVEN") Scenarios.coll200.
Proof.
  intros w page _ _. eexists _, _, _.
  split; [reflexivity |]. split; [reflexivity |]. split; [reflexivity |].
  split; [| exact I].
  eexists _, _. split; [reflexivity |]. split; reflexivity.
Defined.

Lemma paginate_served_collection_witness :
  exists w',
    @paginate unit Scenarios.even 3 (Demo.base_case "EVEN") tt =
    (Ok Scenarios.coll200, w',
     [EGet (Demo.base_case "EVEN") (page_params 1);
      EGet (Demo.base_case "EVEN") (page_params 2);
      EGet (Demo.base_case "EVEN") (page_params 3)]).
Proof.
  destruct (@paginate_served_collection unit Scenarios.even (fun _ => True)
              (Demo.base_case "EVEN") Scenarios.coll200 3%nat tt even_serves_pages I)
    as (w' & Hrun & _).
  - apply Nat.ltb_lt. vm_compute. reflexivity.
  - exists w'. exact Hrun.
Defined.

Lemma paginate_loop_page_failure_witness :
  @paginate_loop unit Demo.big 1 (Demo.base_case "NONE") 1 [] tt =
  (Raised (RuntimeError "GET https://api.qase.io/v1/case/NONE failed: 404 Not Found"), tt,
   [EGet (Demo.base_case "NONE") (page_params 1)]).
Proof.
  apply (@paginate_loop_page_failure unit Demo.big 0 (Demo.base_case "NONE") 1 [] tt tt
           (mkResponse 404 "Not Found" None)).
  - reflexivity.
  - discriminate.
Defined.

Lemma paginate_loop_no_container_witness :
  @paginate_loop unit Demo.shop 1 (case_url "B" (PInt 12)) 1 [] tt =
  (Ok [], tt, [EGet (case_url "B" (PInt 12)) (page_params 1)]).
Proof.
  eapply (@paginate_loop_no_container unit Demo.shop 0 (case_url "B" (PInt 12)) 1 [] tt tt).
  - reflexivity.
  - reflexivity.
  - reflexivity.
  - right. eexists. split; reflexivity.
Defined.

Lemma extract_first_match_witness :
  extract_custom_field_value
    (PList [PDict [("id", PInt 2); ("value", PStr "other field")];
            PDict [("id", PInt 1); ("value", PStr " 1001 ")];
            PInt 5;
            PDict [("id", PInt 1); ("value", PStr "1002")]]) 1 =
  inr (Some "1001").
Proof.
  apply (extract_first_match 1 [PDict [("id", PInt 2); ("value", PStr "other field")]]
           [PInt 5; PDict [("id", PInt 1); ("value", PStr "1002")]]
           [("id", PInt 1); ("value", PStr " 1001 ")]).
  - constructor; [| constructor]. eexists. split; reflexivity.
  - reflexivity.
Defined.

Lemma extract_custom_field_value_stripped_witness : Py.strip "1001" = "1001".
Proof.
  apply (extract_custom_field_value_stripped
           (PList [PDict [("id", PInt 1); ("value", PStr " 1001 ")]]) 1 "1001").
  reflexivity.
Defined.

Lemma null_fields_get_all_cases :
  @get_all_cases unit Scenarios.null_fields 5 "A" tt =
  (Ok ([Demo.case_with 1 (PStr "1001")] ++
       PDict [("id", PInt 2); ("custom_fields", PNone)] :: [Demo.case_with 3 (PStr "1003")]),
   tt, [EGet (Demo.base_case "A") (page_params 1)]).
Proof. vm_compute. reflexivity. Qed.

Lemma build_mapping_fields_not_iterable_witness :
  @build_mapping unit Scenarios.null_fields 5 "A" tt =
  (Raised TypeError, tt,
   [EGet (Demo.base_case "A") (page_params 1); ELog INFO (LogLoadedCases 3 "A")]).
Proof.
  apply (@build_mapping_fields_not_iterable unit Scenarios.null_fields 5 "A" tt tt
           [EGet (Demo.base_case "A") (page_params 1)]
           [Demo.case_with 1 (PStr "1001")] [Demo.case_with 3 (PStr "1003")]
           [("id", PInt 2); ("custom_fields", PNone)] PNone TypeError
           {["1001" := PInt 1]}).
  - exact null_fields_get_all_cases.
  - vm_compute. reflexivity.
  - reflexivity.
  - reflexivity.
Defined.

Lemma no_id_get_all_cases :
  @get_all_cases unit Scenarios.no_id 5 "A" tt =
  (Ok ([Demo.case_with 1 (PStr "1001")] ++
       PDict [("custom_fields", PList [PDict [("id", PInt 1); ("value", PStr "1002")]])]
       :: []),
   tt, [EGet (Demo.base_case "A") (page_params 1)]).
Proof. vm_compute. reflexivity. Qed.

Lemma build_mapping_missing_id_witness :
  @build_mapping unit Scenarios.no_id 5 "A" tt =
  (Raised (KeyError "id"), tt,
   [EGet (Demo.base_case "A") (page_params 1); ELog INFO (LogLoadedCases 2 "A")]).
Proof.
  apply (@build_mapping_missing_id unit Scenarios.no_id 5 "A" tt tt
           [EGet (Demo.base_case "A") (page_params 1)]
           [Demo.case_with 1 (PStr "1001")] []
           [("custom_fields", PList [PDict [("id", PInt 1); ("value", PStr "1002")]])]
           "1002" {["1001" := PInt 1]}).
  - exact no_id_get_all_cases.
  - vm_compute. reflexivity.
  - reflexivity.
  - reflexivity.
Defined.

Lemma build_mapping_table_witness :
  (size Demo.mapping_a <= length Demo.cases_a)%nat /\
  (is_Some (Demo.mapping_a !! "1002") <->
   exists c, In c Demo.cases_a /\ carried_value c = inr (Some "1002")).
Proof.
  destruct (@build_mapping_table unit Demo.shop 5 "A" tt tt tt _ _ Demo.cases_a
              Demo.mapping_a shop_get_all_cases shop_build_mapping)
    as (Hdom & _ & Hsize).
  split; [exact Hsize | exact (Hdom "1002")].
Defined.

Lemma filter_run_outcome_witness :
  filter_run Demo.results_b 5 = inr (List.filter (in_run 5) Demo.results_b) /\
  filter_run [Demo.result_of 6 10 "passed"; PStr "stray"] 5 = inl AttributeError.
Proof.
  split.
  - apply (proj1 (filter_run_outcome 5 Demo.results_b)). repeat constructor.
  - apply (proj2 (filter_run_outcome 5 [Demo.result_of 6 10 "passed"; PStr "stray"])).
    apply Exists_cons_tl, Exists_cons_hd. reflexivity.
Defined.

Lemma convert_status_codes_witness : convert_status (PStr " passed") = PInt 4.
Proof.
  apply (proj2 (convert_status_codes (PStr " passed") eq_refl) " "%char "passed");
    reflexivity.
Defined.


Lemma down_build_mapping :
  @build_mapping unit Scenarios.down 5 "A" tt =
  (Raised (RuntimeError "GET https://api.qase.io/v1/case/A failed: 404 Not Found"), tt,
   [EGet (Demo.base_case "A") (page_params 1)]).
Proof. vm_compute. reflexivity. Qed.

Lemma copy_results_mapping_failure_witness :
  @copy_results unit Scenarios.down 5 "A" 1 "B" 5 tt =
  (Raised (RuntimeError "GET https://api.qase.io/v1/case/A failed: 404 Not Found"), tt,
   [ELog INFO LogBuildingMapping; EGet (Demo.base_case "A") (page_params 1)]).
Proof.
  exact (proj1 (@copy_results_mapping_failure unit Scenarios.down 5 "A" 1 "B" 5 tt tt _ _
                  down_build_mapping)).
Defined.

Lemma no_results_build_mapping :
  @build_mapping unit Scenarios.no_results 5 "A" tt =
  (Ok Demo.mapping_a, tt,
   [EGet (Demo.base_case "A") (page_params 1); ELog INFO (LogLoadedCases 5 "A")]).
Proof. vm_compute. reflexivity. Qed.

Lemma no_results_get_all_results :
  @get_all_results unit Scenarios.no_results 5 "B" tt =
  (Raised (RuntimeError "GET https://api.qase.io/v1/result/B failed: 404 Not Found"), tt,
   [EGet (Demo.base_result "B") (page_params 1)]).
Proof. vm_compute. reflexivity. Qed.

Lemma copy_results_fetch_failure_witness :
  @copy_results unit Scenarios.no_results 5 "A" 1 "B" 5 tt =
  (Raised (RuntimeError "GET https://api.qase.io/v1/result/B failed: 404 Not Found"), tt,
   [ELog INFO LogBuildingMapping;
    EGet (Demo.base_case "A") (page_params 1);
    ELog INFO (LogLoadedCases 5 "A");
    ELog INFO (LogMappingKeys 3);
    ELog INFO LogFetchingResults;
    EGet (Demo.base_result "B") (page_params 1)]).
Proof.
  assert (Hne : Demo.mapping_a <> ∅) by apply insert_non_empty.
  exact (proj1 (@copy_results_fetch_failure unit Scenarios.no_results 5 "A" 1 "B" 5 tt tt tt
                  _ Demo.mapping_a _ _ no_results_build_mapping Hne
                  no_results_get_all_results)).
Defined.

Lemma copy_results_dump_is_last_witness :
  exists before,
    (@copy_results unit Demo.shop 5 "A" 1 "B" 5 tt).2 =
    before ++ [EDumpSummary "summary.json" (mkSummary 1 3 2); ELog INFO LogDone;
               ELog INFO (LogSummary (mkSummary 1 3 2))] /\
    Forall (fun e => is_dump e = false) before.
Proof.
  rewrite shop_copy_results.
  refine (proj2 (proj2 (@copy_results_dump_is_last unit Demo.shop 5 "A" 1 "B" 5 tt tt
                          (Ok tt) _ "summary.json" (mkSummary 1 3 2) shop_copy_results _))).
  do 21 right. left. reflexivity.
Defined.

Lemma copy_one_no_value_witness :
  @copy_one unit Demo.shop "A" 1 "B" 5 Demo.mapping_a Demo.zero
            (Demo.result_of 5 12 "passed") tt =
  (Ok (mkSummary 0 1 0), tt,
   [EGet (case_url "B" (PInt 12)) None; ELog INFO (LogSkippingCase (PInt 12))]).
Proof.
  apply (@copy_one_no_value unit Demo.shop "A" 1 "B" 5 Demo.mapping_a Demo.zero
           (Demo.result_of 5 12 "passed") (PInt 12) (PStr "passed") (Demo.case_plain 12)
           tt tt [EGet (case_url "B" (PInt 12)) None]); reflexivity.
Defined.

Lemma shop_resolves_13 :
  @resolves unit Demo.shop "B" (Demo.result_of 5 13 "passed") tt (PStr "passed") "9999" tt
            [EGet "https://api.qase.io/v1/case/B/13" None].
Proof.
  exists (PInt 13), (Demo.case_with 13 (PStr "9999")).
  repeat split; vm_compute; reflexivity.
Defined.

Lemma copy_one_unmapped_witness :
  @copy_one unit Demo.shop "A" 1 "B" 5 Demo.mapping_a Demo.zero
            (Demo.result_of 5 13 "passed") tt =
  (Ok (mkSummary 0 1 0), tt,
   [EGet "https://api.qase.io/v1/case/B/13" None; ELog INFO (LogNoMappingFor "9999")]).
Proof.
  apply (proj1 (@copy_one_unmapped unit Demo.shop "A" 1 "B" 5 Demo.mapping_a Demo.zero
                  (Demo.result_of 5 13 "passed") (PStr "passed") "9999" tt tt _
                  shop_resolves_13 eq_refl)).
Defined.

Lemma copy_one_empty_case_witness :
  @copy_one unit Demo.shop "A" 1 "B" 5 Demo.mapping_a Demo.zero
            (Demo.result_of 5 15 "skipped") tt =
  (Ok (mkSummary 0 0 1), tt, [EGet (case_url "B" (PInt 15)) None]).
Proof.
  apply (@copy_one_empty_case unit Demo.shop "A" 1 "B" 5 Demo.mapping_a Demo.zero
           [("run_id", PInt 5); ("case_id", PInt 15); ("status", PStr "skipped")]
           [("status", PBool true); ("result", PNone)] tt tt
           (mkResponse 200 "(json)" (Some (PDict [("status", PBool true); ("result", PNone)]))));
    reflexivity.
Defined.

Lemma copy_one_copied_witness :
  @copy_one unit Demo.shop "A" 1 "B" 5 Demo.mapping_a Demo.zero
            (Demo.result_of 5 10 "PASSED") tt =
  (Ok (mkSummary 1 0 0), tt,
   [EGet "https://api.qase.io/v1/case/B/10" None;
    EPost "https://api.qase.io/v1/result/A/1"
          (PDict [("case_id", PInt 3); ("status", PStr "passed");
                  ("comment", PStr "Copied from B run 5")]);
    ELog INFO (LogCopied "1001" (PInt 3))]).
Proof.
  apply (@copy_one_copied unit Demo.shop "A" 1 "B" 5 Demo.mapping_a Demo.zero
           (Demo.result_of 5 10 "PASSED") (PStr "PASSED") (PInt 3) "1001" tt tt tt _
           (mkResponse 200 "(json)" (Some (PDict [("status", PBool true)])))
           (PDict [("status", PBool true)]) shop_resolves_10).
  - vm_compute. reflexivity.
  - reflexivity.
  - reflexivity.
  - now left.
  - reflexivity.
Defined.

Lemma plain_ack_resolves_10 :
  @resolves unit Scenarios.plain_ack "B" (Demo.result_of 5 10 "PASSED") tt (PStr "PASSED")
            "1001" tt [EGet "https://api.qase.io/v1/case/B/10" None].
Proof.
  exists (PInt 10), (Demo.case_with 10 (PStr "1001")).
  repeat split; vm_compute; reflexivity.
Defined.

Lemma copy_one_accepted_undecodable_witness :
  @copy_one unit Scenarios.plain_ack "A" 1 "B" 5 Demo.mapping_a Demo.zero
            (Demo.result_of 5 10 "PASSED") tt =
  (Ok (mkSummary 0 0 1), tt,
   [EGet "https://api.qase.io/v1/case/B/10" None;
    EPost "https://api.qase.io/v1/result/A/1"
          (PDict [("case_id", PInt 3); ("status", PStr "passed");
                  ("comment", PStr "Copied from B run 5")]);
    ELog ERROR (LogPostError JSONDecodeError)]).
Proof.
  apply (@copy_one_accepted_undecodable unit Scenarios.plain_ack "A" 1 "B" 5 Demo.mapping_a
           Demo.zero (Demo.result_of 5 10 "PASSED") (PStr "PASSED") (PInt 3) "1001" tt tt tt _
           (mkResponse 200 "OK" None) plain_ack_resolves_10).
  - vm_compute. reflexivity.
  - reflexivity.
  - reflexivity.
  - now left.
  - reflexivity.
Defined.

Lemma shop_copy_loop :
  @copy_loop unit Demo.shop "A" 1 "B" 5 Demo.mapping_a
             [Demo.result_of 5 11 "Failed"; Demo.result_of 5 10 "PASSED";
              Demo.result_of 5 12 "passed"] Demo.zero tt =
  (Ok (mkSummary 1 1 1), tt,
   [EGet "https://api.qase.io/v1/case/B/11" None;
    EPost "https://api.qase.io/v1/result/A/1"
          (PDict [("case_id", PInt 2); ("status", PStr "failed");
                  ("comment", PStr "Copied from B run 5")]);
    ELog ERROR (LogPostError (RuntimeError
      "POST https://api.qase.io/v1/result/A/1 failed: 500 Internal Server Error"));
    EGet "https://api.qase.io/v1/case/B/10" None;
    EPost "https://api.qase.io/v1/result/A/1"
          (PDict [("case_id", PInt 3); ("status", PStr "passed");
                  ("comment", PStr "Copied from B run 5")]);
    ELog INFO (LogCopied "1001" (PInt 3));
    EGet "https://api.qase.io/v1/case/B/12" None;
    ELog INFO (LogSkippingCase (PInt 12))]).
Proof. vm_compute. reflexivity. Qed.

Lemma copy_loop_requests_witness :
  List.filter is_get (@copy_loop unit Demo.shop "A" 1 "B" 5 Demo.mapping_a
             [Demo.result_of 5 11 "Failed"; Demo.result_of 5 10 "PASSED";
              Demo.result_of 5 12 "passed"] Demo.zero tt).2 =
  [EGet (case_url "B" (PInt 11)) None; EGet (case_url "B" (PInt 10)) None;
   EGet (case_url "B" (PInt 12)) None].
Proof.
  rewrite shop_copy_loop.
  exact (proj1 (@copy_loop_requests unit Demo.shop "A" 1 "B" 5 Demo.mapping_a _ _ _ _ _ _
                  shop_copy_loop)).
Defined.

Lemma copy_loop_counters_witness :
  0 <= 1 <= 0 + 3 /\ 0 <= 1 <= 0 + 3 /\ 0 <= 1 <= 0 + 3.
Proof.
  exact (@copy_loop_counters unit Demo.shop "A" 1 "B" 5 Demo.mapping_a _ _ _ _ _ _
           shop_copy_loop).
Defined.
